(** * Profile Analysis Dashboard: the GitHub scraper of [app.py]

    A shallow embedding of [scrape_github], [process_row], the row loop
    and the construction of [results_df], with the properties of the
    scrape-and-normalise routine proved over it.

    Conventions.
    - A Python [str] is a list of Unicode code points ([N]).
    - A spreadsheet cell is a [pyval].  Finite floating-point cells are
      not represented: their [str()] is the shortest round-trip decimal,
      a floating-point algorithm.  NaN, the float pandas uses for an
      empty cell, is.
    - Exceptions are values of [exn]; code that can raise lives in
      [outcome], code that also talks to the network in [M], a state
      monad over the [world] in which the state survives a raise, as
      Python's side effects do.
    - [BeautifulSoup(response.content, "html.parser")] is not re-done
      here: a response carries the parse tree the parser builds from its
      body.
    - Reading the upload, renaming and selecting its columns, the
      Streamlit widgets and [to_csv] are pandas and Streamlit calls and
      are not modelled.  The row loop and [results_df] are stated on the
      frame [df] as line 91 leaves it when it returns: one without
      missing identifier cells. *)

From Stdlib Require Import ZArith NArith String Ascii Decimal DecimalPos.
From stdpp Require Import base numbers option list gmap.

Local Open Scope N_scope.

(** ** Python strings *)

Abbreviation pystr := (list N).

(** A string literal of the source, as code points. *)
Fixpoint py (s : string) : pystr :=
  match s with
  | EmptyString => []
  | String a r => N_of_ascii a :: py r
  end.

Arguments py : simpl never.

(** [str.isspace] on one code point: CPython's [_PyUnicode_IsWhitespace]. *)
Definition isspace (c : N) : bool :=
  ((0x09 <=? c) && (c <=? 0x0D)) || ((0x1C <=? c) && (c <=? 0x20))
  || (c =? 0x85) || (c =? 0xA0) || (c =? 0x1680)
  || ((0x2000 <=? c) && (c <=? 0x200A))
  || (c =? 0x2028) || (c =? 0x2029) || (c =? 0x202F) || (c =? 0x205F)
  || (c =? 0x3000).

Fixpoint lstrip (s : pystr) : pystr :=
  match s with
  | [] => []
  | c :: r => if isspace c then lstrip r else s
  end.

Definition rstrip (s : pystr) : pystr := rev (lstrip (rev s)).

(** [s.strip()] *)
Definition strip (s : pystr) : pystr := rstrip (lstrip s).

Arguments strip : simpl never.

(** [str.lower] on one code point.  ASCII is exact.  Outside ASCII only
    the two code points whose lowercase contains an ASCII letter are
    reproduced (U+0130 and the Kelvin sign U+212A); the rest of the
    Unicode table is left as the identity, which cannot change a
    comparison with an ASCII literal. *)
Definition lower_char (c : N) : pystr :=
  if (0x41 <=? c) && (c <=? 0x5A) then [c + 32]
  else if c =? 0x130 then [0x69; 0x307]
  else if c =? 0x212A then [0x6B]
  else [c].

(** [s.lower()] *)
Definition lower (s : pystr) : pystr := flat_map lower_char s.

Arguments lower : simpl never.

Definition digit_char (d : N) : N := 48 + d.

Fixpoint str_of_uint (d : Decimal.uint) : pystr :=
  match d with
  | Nil => []
  | D0 r => digit_char 0 :: str_of_uint r
  | D1 r => digit_char 1 :: str_of_uint r
  | D2 r => digit_char 2 :: str_of_uint r
  | D3 r => digit_char 3 :: str_of_uint r
  | D4 r => digit_char 4 :: str_of_uint r
  | D5 r => digit_char 5 :: str_of_uint r
  | D6 r => digit_char 6 :: str_of_uint r
  | D7 r => digit_char 7 :: str_of_uint r
  | D8 r => digit_char 8 :: str_of_uint r
  | D9 r => digit_char 9 :: str_of_uint r
  end.

(** [str(n)] for a Python [int]. *)
Definition str_of_int (n : Z) : pystr :=
  match Z.to_int n with
  | Decimal.Pos d => str_of_uint d
  | Decimal.Neg d => 45 :: str_of_uint d
  end.

(** [needle in hay] for two strings. *)
Fixpoint startswith (hay needle : pystr) : bool :=
  match needle, hay with
  | [], _ => true
  | _ :: _, [] => false
  | a :: needle', b :: hay' => (a =? b) && startswith hay' needle'
  end.

Fixpoint contains (hay needle : pystr) : bool :=
  startswith hay needle ||
  match hay with
  | [] => false
  | _ :: hay' => contains hay' needle
  end.

(** ** The pattern [^[a-zA-Z0-9\-]+$] *)

Definition id_char (c : N) : bool :=
  ((0x61 <=? c) && (c <=? 0x7A)) || ((0x41 <=? c) && (c <=? 0x5A))
  || ((0x30 <=? c) && (c <=? 0x39)) || (c =? 0x2D).

Fixpoint skip_id_chars (s : pystr) : pystr :=
  match s with
  | [] => []
  | c :: r => if id_char c then skip_id_chars r else s
  end.

(** [re.match(r'^[a-zA-Z0-9\-]+$', s)] as a truth value: one or more
    characters of the class, then the end of the string; without
    [re.MULTILINE], [$] also matches just before a newline that ends the
    string. *)
Definition re_match_id (s : pystr) : bool :=
  match s with
  | [] => false
  | c :: _ =>
      let rest := skip_id_chars s in
      id_char c && (bool_decide (rest = []) || bool_decide (rest = [0x0A]))
  end.

Arguments re_match_id : simpl never.

(** ** Exceptions *)

Inductive exc_class :=
  | TypeError
  | AttributeError
  | IndexError
  | RequestException
  | HTTPError
  | ConnectionError
  | Timeout
  | TooManyRedirects
  | OtherException.

(** [issubclass(c, requests.exceptions.RequestException)] *)
Definition is_request_exception (c : exc_class) : bool :=
  match c with
  | RequestException | HTTPError | ConnectionError | Timeout
  | TooManyRedirects => true
  | _ => false
  end.

(** An exception: its class and [str(e)]. *)
Record exn := { exn_class : exc_class; exn_msg : pystr }.

Inductive outcome (A : Type) :=
  | Ret (a : A)
  | Raise (e : exn).
Arguments Ret {A} a.
Arguments Raise {A} e.

#[global] Instance outcome_ret : MRet outcome := fun A a => Ret a.
#[global] Instance outcome_bind : MBind outcome := fun A B f c =>
  match c with
  | Ret a => f a
  | Raise e => Raise e
  end.

(** ** Cell values *)

Inductive pyval :=
  | VNone
  | VStr (s : pystr)
  | VInt (n : Z)
  | VBool (b : bool)
  | VNaN
  | VNA.

Definition type_name (v : pyval) : pystr :=
  match v with
  | VNone => py "NoneType"
  | VStr _ => py "str"
  | VInt _ => py "int"
  | VBool _ => py "bool"
  | VNaN => py "float"
  | VNA => py "NAType"
  end.

(** [bool(v)]; pandas' [NA] refuses to be tested. *)
Definition truth (v : pyval) : outcome bool :=
  match v with
  | VNone => Ret false
  | VStr s => Ret (negb (bool_decide (s = [])))
  | VInt n => Ret (negb (n =? 0)%Z)
  | VBool b => Ret b
  | VNaN => Ret true
  | VNA => Raise {| exn_class := TypeError;
                    exn_msg := py "boolean value of NA is ambiguous" |}
  end.

(** [pd.isna(v)] on a scalar. *)
Definition isna (v : pyval) : bool :=
  match v with
  | VNone | VNaN | VNA => true
  | _ => false
  end.

(** [str(v)] *)
Definition py_str (v : pyval) : pystr :=
  match v with
  | VNone => py "None"
  | VStr s => s
  | VInt n => str_of_int n
  | VBool true => py "True"
  | VBool false => py "False"
  | VNaN => py "nan"
  | VNA => py "<NA>"
  end.

(** [v.strip()]: only [str] has the method. *)
Definition strip_method (v : pyval) : outcome pystr :=
  match v with
  | VStr s => Ret (strip s)
  | _ => Raise {| exn_class := AttributeError;
                  exn_msg := py "'" ++ type_name v
                             ++ py "' object has no attribute 'strip'" |}
  end.

(** ** The parse tree *)

(** An attribute value: a string, or for the multi-valued attributes
    ([class] among them) the list of its whitespace-separated tokens. *)
Inductive attr_value :=
  | AttrStr (s : pystr)
  | AttrList (l : list pystr).

#[warnings="-register-all"]
Inductive node :=
  | Tag (name : pystr) (attrs : gmap pystr attr_value) (contents : list node)
  | NavigableString (s : pystr)
  | Comment (s : pystr).

(** [tag.descendants]: every node below [n], in document order. *)
Fixpoint descendants (n : node) : list node :=
  match n with
  | Tag _ _ cs => flat_map (fun c => c :: descendants c) cs
  | _ => []
  end.

(** [' '.join(l)] *)
Fixpoint join_space (l : list pystr) : pystr :=
  match l with
  | [] => []
  | [s] => s
  | s :: r => s ++ 32 :: join_space r
  end.

(** [SoupStrainer._matches] for a string to match against: a missing
    attribute matches only the empty string; a multi-valued attribute
    matches by any one of its tokens or by its joined text. *)
Definition matches (markup : option attr_value) (match_against : pystr) : bool :=
  match markup with
  | None => bool_decide (match_against = [])
  | Some (AttrStr s) => bool_decide (s = match_against)
  | Some (AttrList l) =>
      existsb (fun item => bool_decide (item = match_against)) l
      || bool_decide (join_space l = match_against)
  end.

(** [SoupStrainer.search_tag] for a tag name and one attribute. *)
Definition search_tag (tag_name attr match_against : pystr) (n : node) : bool :=
  match n with
  | Tag nm attrs _ =>
      bool_decide (nm = tag_name) && matches (attrs !! attr) match_against
  | _ => false
  end.

(** [n.find_all(tag_name, attr=match_against)] *)
Definition find_all (n : node) (tag_name attr match_against : pystr) : list node :=
  List.filter (search_tag tag_name attr match_against) (descendants n).

(** [n.find(tag_name, attr=match_against)] *)
Definition find (n : node) (tag_name attr match_against : pystr) : option node :=
  head (find_all n tag_name attr match_against).

(** [n.get_text()]: the strings below [n], comments left out, joined. *)
Definition get_text (n : node) : pystr :=
  flat_map (fun d => match d with NavigableString s => s | _ => [] end)
           (descendants n).

(** ** The network and the session state *)

Record request := {
  req_url : pystr;
  req_user_agent : pystr;
  req_timeout : Z
}.

Record response := {
  status_code : Z;
  reason : pystr;
  url : pystr;
  content : node
}.

(** [response.raise_for_status()] of requests. *)
Definition raise_for_status (r : response) : outcome unit :=
  if ((400 <=? status_code r) && (status_code r <? 500))%Z then
    Raise {| exn_class := HTTPError;
             exn_msg := str_of_int (status_code r) ++ py " Client Error: "
                        ++ reason r ++ py " for url: " ++ url r |}
  else if ((500 <=? status_code r) && (status_code r <? 600))%Z then
    Raise {| exn_class := HTTPError;
             exn_msg := str_of_int (status_code r) ++ py " Server Error: "
                        ++ reason r ++ py " for url: " ++ url r |}
  else Ret tt.

Arguments find : simpl never.
Arguments find_all : simpl never.
Arguments get_text : simpl never.
Arguments raise_for_status : simpl never.

(** The requests sent so far, and the module-level [cache] dict. *)
Record world := {
  sent : list request;
  cache : gmap pystr pyval
}.

Definition M (A : Type) : Type := world -> outcome A * world.

#[global] Instance M_ret : MRet M := fun A a w => (Ret a, w).
#[global] Instance M_bind : MBind M := fun A B f c w =>
  match c w with
  | (Ret a, w') => f a w'
  | (Raise e, w') => (Raise e, w')
  end.

Definition lift {A} (c : outcome A) : M A := fun w => (c, w).

(** [try: body  except Exception as e: handler(e)] *)
Definition try_except {A} (body : M A) (handler : exn -> M A) : M A := fun w =>
  match body w with
  | (Ret a, w') => (Ret a, w')
  | (Raise e, w') => handler e w'
  end.

(** [cache.clear()] *)
Definition cache_clear : M unit := fun w =>
  (Ret tt, {| sent := sent w; cache := ∅ |}).

(** ** Results *)

Record repo_record := {
  name : pystr;
  link : pystr;
  language : pystr;
  description : pystr
}.

(** The dict [scrape_github] returns; the success dict has no ["error"]
    key. *)
Record result := {
  error : option pystr;
  count : Z;
  repos : list repo_record
}.

Definition error_result (msg : pystr) : result :=
  {| error := Some msg; count := 0; repos := [] |}.

(** The truth value of [r.get("error")]. *)
Definition get_error (r : result) : bool :=
  match error r with
  | Some msg => negb (bool_decide (msg = []))
  | None => false
  end.

Definition user_agent : pystr :=
  py "Mozilla/5.0 (Windows NT 10.0; Win64; x64) AppleWebKit/537.36 (KHTML, like Gecko) Chrome/135.0.0.0 Safari/537.36".

(** The body of the [for repo in repos] loop. *)
Definition extract_repo (github_id : pystr) (repo : node) : repo_record :=
  let name_elem := find repo (py "a") (py "itemprop") (py "name codeRepository") in
  let name := match name_elem with
              | Some e => strip (get_text e)
              | None => py "Unknown"
              end in
  let link := if bool_decide (name <> py "Unknown")
              then py "https://github.com/" ++ github_id ++ py "/" ++ name
              else [] in
  let language_elem := find repo (py "span") (py "itemprop") (py "programmingLanguage") in
  let language := match language_elem with
                  | Some e => strip (get_text e)
                  | None => py "Unknown"
                  end in
  let description_elem := find repo (py "p") (py "itemprop") (py "description") in
  let description := match description_elem with
                     | Some e => strip (get_text e)
                     | None => []
                     end in
  {| name := name; link := link; language := language;
     description := description |}.

Arguments extract_repo : simpl never.

(** The test of line 22, with Python's short-circuit [or]. *)
Definition no_id_provided (github_id : pyval) : outcome bool :=
  t ← truth github_id;
  if negb t then mret true
  else if isna github_id then mret true
  else if bool_decide (lower (strip (py_str github_id)) = py "none") then mret true
  else mret (bool_decide (strip (py_str github_id) = [])).

Definition profile_url (github_id : pystr) : pystr :=
  py "https://github.com/" ++ github_id ++ py "?tab=repositories".

Section Scraper.

(** The answer of the network to the [k]-th request of the session: a
    response, or the exception [requests.get] raises. *)
Variable net : nat -> request -> outcome response.

(** [requests.get(url, headers=headers, timeout=10)] *)
Definition requests_get (u : pystr) (agent : pystr) (timeout : Z) : M response :=
  fun w =>
    let req := {| req_url := u; req_user_agent := agent; req_timeout := timeout |} in
    (net (length (sent w)) req, {| sent := sent w ++ [req]; cache := cache w |}).

(** The [try] block of [scrape_github]. *)
Definition scrape_try (github_id0 : pyval) : M result :=
  github_id ← lift (strip_method github_id0);
  if negb (re_match_id github_id) then
    mret (error_result (py "Invalid GitHub ID format"))
  else
    response ← requests_get (profile_url github_id) user_agent 10;
    _ ← lift (raise_for_status response);
    let soup := content response in
    match find soup (py "div") (py "id") (py "user-repositories-list") with
    | None => mret (error_result (py "No repositories found"))
    | Some repo_list =>
        let repos := find_all repo_list (py "li") (py "class") (py "source") in
        let repo_data :=
          fold_left (fun acc repo => acc ++ [extract_repo github_id repo]) repos [] in
        mret {| error := None; count := Z.of_nat (length repo_data);
                repos := repo_data |}
    end.

Definition scrape_except (e : exn) : M result :=
  if is_request_exception (exn_class e) then
    mret (error_result (py "Network error: " ++ exn_msg e))
  else
    mret (error_result (py "Scraping error: " ++ exn_msg e)).

Definition scrape_github (github_id : pyval) : M result :=
  missing ← lift (no_id_provided github_id);
  if (missing : bool) then mret (error_result (py "No GitHub ID provided"))
  else try_except (scrape_try github_id) scrape_except.

End Scraper.

(** ** Rows *)

(** A row of [df]: the three columns kept by the script. *)
Record row := {
  first_name : pyval;
  last_name : pyval;
  github_id_cell : pyval
}.

(** The dict [process_row] returns. *)
Record row_result := { github : result }.

(** What [df.fillna("")] leaves in one cell, and in a row, when the call
    returns.  Whether it returns is pandas' business: a version that
    refuses to put a string into a float64 column raises instead, and
    then no frame is looped over. *)
Definition fillna (v : pyval) : pyval := if isna v then VStr [] else v.

Definition fillna_row (r : row) : row :=
  {| first_name := fillna (first_name r);
     last_name := fillna (last_name r);
     github_id_cell := fillna (github_id_cell r) |}.

(** A row of [results_df]. *)
Record out_row := {
  out_first_name : pyval;
  out_last_name : pyval;
  out_github_id : pyval;
  out_github_repos : pyval
}.

(** The dict appended by the [except] branch of the row loop. *)
Definition processing_error : row_result :=
  {| github := error_result (py "Processing error") |}.

(** The text of [r["error"]] once [r.get("error")] is known to be true. *)
Definition error_text (r : result) : pystr := default [] (error r).

Section Rows.

Variable net : nat -> request -> outcome response.

Definition process_row (r : row) (user_key : pystr) : M row_result :=
  _ ← cache_clear;
  github_result ← scrape_github net (github_id_cell r);
  mret {| github := github_result |}.

Definition row_label (i : nat) (user_key : pystr) : pystr :=
  py "Row " ++ str_of_int (Z.of_nat i + 1) ++ py " (" ++ user_key ++ py "): ".

(** One turn of [for i, row in df.iterrows()], on the two lists the
    loop appends to. *)
Definition row_step (i : nat) (r : row) (acc : list row_result * list pystr)
  : M (list row_result * list pystr) :=
  let results := fst acc in
  let errors := snd acc in
  let user_key := py_str (first_name r) ++ py "_" ++ py_str (last_name r) in
  try_except
    (result ← process_row r user_key;
     let github_result := github result in
     let errors :=
       if get_error github_result
          && contains (error_text github_result) (py "No GitHub ID provided")
       then errors ++ [row_label i user_key ++ py "No GitHub ID provided"]
       else if get_error github_result
               && contains (error_text github_result) (py "Invalid GitHub ID format")
       then errors ++ [row_label i user_key ++ py "Invalid GitHub ID format - "
                       ++ py_str (github_id_cell r)]
       else errors in
     mret (results ++ [result], errors))
    (fun e =>
       mret (results ++ [processing_error],
             errors ++ [row_label i user_key ++ py "Processing error - "
                        ++ exn_msg e])).

(** The row loop from row [i] on. *)
Fixpoint process_rows (i : nat) (rows : list row)
    (acc : list row_result * list pystr) : M (list row_result * list pystr) :=
  match rows with
  | [] => mret acc
  | r :: rest =>
      acc' ← row_step i r acc;
      process_rows (S i) rest acc'
  end.

End Rows.

(** One element of the list comprehension that builds [results_df]. *)
Definition results_row (results : list row_result) (i : nat) (r : row)
  : outcome out_row :=
  t ← truth (github_id_cell r);
  let gid := if (t : bool) then github_id_cell r else VStr (py "None") in
  match results !! i with
  | None => Raise {| exn_class := IndexError;
                     exn_msg := py "list index out of range" |}
  | Some res =>
      let repos_cell :=
        if negb (get_error (github res)) then VInt (count (github res))
        else match error (github res) with
             | Some msg => VStr msg
             | None => VNone
             end in
      mret {| out_first_name := first_name r; out_last_name := last_name r;
              out_github_id := gid; out_github_repos := repos_cell |}
  end.

Fixpoint results_rows (results : list row_result) (i : nat) (rows : list row)
  : outcome (list out_row) :=
  match rows with
  | [] => mret []
  | r :: rest =>
      o ← results_row results i r;
      os ← results_rows results (S i) rest;
      mret (o :: os)
  end.

Definition results_df (results : list row_result) (rows : list row)
  : outcome (list out_row) :=
  results_rows results 0 rows.

Definition world0 : world := {| sent := []; cache := ∅ |}.

(** ** The scraper as a function of the network's answer *)

(** The dict the two [except] clauses build from an exception. *)
Definition handled (e : exn) : result :=
  if is_request_exception (exn_class e)
  then error_result (py "Network error: " ++ exn_msg e)
  else error_result (py "Scraping error: " ++ exn_msg e).

(** The dict built from a parsed page. *)
Definition page_result (github_id : pystr) (soup : node) : result :=
  match find soup (py "div") (py "id") (py "user-repositories-list") with
  | None => error_result (py "No repositories found")
  | Some repo_list =>
      let repos := find_all repo_list (py "li") (py "class") (py "source") in
      {| error := None; count := Z.of_nat (length repos);
         repos := map (extract_repo github_id) repos |}
  end.

(** The dict built from the answer of the network. *)
Definition fetched (github_id : pystr) (answer : outcome response) : result :=
  match answer with
  | Raise e => handled e
  | Ret r =>
      match raise_for_status r with
      | Raise e => handled e
      | Ret _ => page_result github_id (content r)
      end
  end.

(** The one request [scrape_github] sends for an identifier. *)
Definition profile_request (github_id : pystr) : request :=
  {| req_url := profile_url github_id; req_user_agent := user_agent;
     req_timeout := 10 |}.

Definition after_request (w : world) (q : request) : world :=
  {| sent := sent w ++ [q]; cache := cache w |}.

(** ** Notions of the specification *)

(** ASCII case folding, and equality of two strings up to it. *)
Definition ascii_fold (c : N) : N :=
  if (0x41 <=? c) && (c <=? 0x5A) then c + 32 else c.

Definition equal_ignoring_case (a b : pystr) : bool :=
  bool_decide (map ascii_fold a = map ascii_fold b).

(** The five kinds of error message [scrape_github] can report. *)
Inductive error_kind : pystr -> Prop :=
  | Missing : error_kind (py "No GitHub ID provided")
  | InvalidFormat : error_kind (py "Invalid GitHub ID format")
  | NetworkError cause : error_kind (py "Network error: " ++ cause)
  | NoRepositoriesFound : error_kind (py "No repositories found")
  | ScrapingError cause : error_kind (py "Scraping error: " ++ cause).

(** What the row loop keeps of one call of [scrape_github]: its result,
    or the zero-count dict of the [except] branch. *)
Definition at_row_boundary (o : outcome result) : result :=
  match o with
  | Ret r => r
  | Raise _ => {| error := Some (py "Processing error"); count := 0; repos := [] |}
  end.

(** One fetch per row, in row order, each starting where the previous
    one left the session (the cache emptied first). *)
Fixpoint one_fetch_per_row (net : nat -> request -> outcome response)
    (rows : list row) (w : world) : list result * world :=
  match rows with
  | [] => ([], w)
  | r :: rest =>
      let step := scrape_github net (github_id_cell r)
                    {| sent := sent w; cache := ∅ |} in
      let later := one_fetch_per_row net rest (snd step) in
      (at_row_boundary (fst step) :: fst later, snd later)
  end.

(** The text of an optional element, trimmed, or a fallback. *)
Definition trimmed_text_or (fallback : pystr) (elem : option node) : pystr :=
  match elem with
  | Some e => strip (get_text e)
  | None => fallback
  end.

(** A result dict is a success or an error, and its count agrees. *)
Definition well_tagged (r : result) : Prop :=
  (error r = None /\ get_error r = false /\
   count r = Z.of_nat (length (repos r)))
  \/
  (exists msg, error r = Some msg /\ get_error r = true /\ error_kind msg /\
               count r = 0%Z /\ repos r = []).

(** The reading of the fetch contract under which every status outside
    2xx is a network failure. *)
Definition every_non_2xx_is_network_error : Prop :=
  forall (net : nat -> request -> outcome response) (s : pystr) (w : world)
         (r : response),
    no_id_provided (VStr s) = Ret false ->
    re_match_id (strip s) = true ->
    net (length (sent w)) (profile_request (strip s)) = Ret r ->
    ~ (200 <= status_code r < 300)%Z ->
    exists cause,
      fst (scrape_github net (VStr s) w) =
      Ret {| error := Some (py "Network error: " ++ cause); count := 0;
             repos := [] |}.

(** ** Sample pages and networks *)

Definition itemprop (v : pystr) : gmap pystr attr_value :=
  {[ py "itemprop" := AttrStr v ]}.

Definition class_ (tokens : list pystr) : gmap pystr attr_value :=
  {[ py "class" := AttrList tokens ]}.

(** A source repository with all three markers. *)
Definition entry_hello : node :=
  Tag (py "li") (class_ [py "col-12"; py "source"])
    [ Tag (py "h3") ∅
        [ Tag (py "a") (itemprop (py "name codeRepository"))
            [NavigableString (py "  hello-world ")] ];
      Tag (py "p") (itemprop (py "description"))
        [NavigableString (py " My first repo "); Comment (py "hidden")];
      Tag (py "span") (itemprop (py "programmingLanguage"))
        [NavigableString (py "Python")] ].

(** A source repository with none of them. *)
Definition entry_bare : node :=
  Tag (py "li") (class_ [py "source"; py "public"])
    [ Tag (py "span") ∅ [NavigableString (py "nothing")] ].

(** A fork: no [source] token. *)
Definition entry_fork : node :=
  Tag (py "li") (class_ [py "fork"])
    [ Tag (py "a") (itemprop (py "name codeRepository"))
        [NavigableString (py "forked")] ].

Definition page_of (entries : list node) : node :=
  Tag (py "[document]") ∅
    [ Tag (py "html") ∅
        [ Tag (py "body") ∅
            [ Tag (py "div") {[ py "id" := AttrStr (py "user-repositories-list") ]}
                [ Tag (py "ul") ∅ entries ] ] ] ].

(** A page without the repository list. *)
Definition page_empty : node :=
  Tag (py "[document]") ∅ [ Tag (py "html") ∅ [ Tag (py "body") ∅ [] ] ].

Definition respond (status : Z) (why : pystr) (soup : node) : response :=
  {| status_code := status; reason := why;
     url := py "https://github.com/octocat?tab=repositories";
     content := soup |}.

Definition net_page (status : Z) (why : pystr) (soup : node)
  : nat -> request -> outcome response :=
  fun _ _ => Ret (respond status why soup).

Definition net_down : nat -> request -> outcome response :=
  fun _ _ => Raise {| exn_class := ConnectionError;
                      exn_msg := py "Connection refused" |}.

Definition octocat_request : request :=
  {| req_url := py "https://github.com/octocat?tab=repositories";
     req_user_agent := user_agent; req_timeout := 10 |}.

(** A batch whose second row makes [scrape_github] raise. *)
Definition batch_with_na : list row :=
  [ {| first_name := VStr (py "Ada"); last_name := VStr (py "Lovelace");
       github_id_cell := VStr (py "octocat") |};
    {| first_name := VStr (py "Alan"); last_name := VStr (py "Turing");
       github_id_cell := VNA |};
    {| first_name := VStr (py "Grace"); last_name := VStr (py "Hopper");
       github_id_cell := VStr [] |} ].

(** A frame without missing cells: one identifier, one empty string. *)
Definition frame_two_rows : list row :=
  [ {| first_name := VStr (py "Ada"); last_name := VStr (py "Lovelace");
       github_id_cell := VStr (py "octocat") |};
    {| first_name := VStr (py "Alan"); last_name := VStr (py "Turing");
       github_id_cell := VStr [] |} ].

(** ** The upload check and the summary *)

Definition required_cols : list pystr :=
  [py "First Name"; py "Last Name"; py "This is my GitHub ID"].

(** [', '.join(l)] *)
Fixpoint join_comma (l : list pystr) : pystr :=
  match l with
  | [] => []
  | [s] => s
  | s :: r => s ++ py ", " ++ join_comma r
  end.

(** [[col for col in required_cols if col not in df.columns]], for a
    frame whose column labels are strings. *)
Definition missing_cols (columns : list pystr) : list pystr :=
  List.filter
    (fun col => negb (existsb (fun c => bool_decide (c = col)) columns))
    required_cols.

(** The message of [st.error] when the script stops at the column
    check, [None] when it goes on. *)
Definition check_columns (columns : list pystr) : option pystr :=
  let missing := missing_cols columns in
  if negb (bool_decide (missing = []))
  then Some (py "Missing columns: " ++ join_comma missing)
  else None.

(** [sum(1 for r in results if not r["github"].get("error"))] *)
Definition valid_github (results : list row_result) : Z :=
  fold_left
    (fun acc r => if negb (get_error (github r)) then (acc + 1)%Z else acc)
    results 0%Z.

(** The list handed to [np.mean]:
    [[r["github"]["count"] for r in results if not r["github"].get("error")] or [0]] *)
Definition mean_input (results : list row_result) : list Z :=
  let counts :=
    map (fun r => count (github r))
        (List.filter (fun r => negb (get_error (github r))) results) in
  if negb (bool_decide (counts = [])) then counts else [0%Z].

(** The requests one identifier cell is worth: one for a string that
    passes both tests of [scrape_github], none otherwise. *)
Definition requests_for (v : pyval) : list request :=
  match v with
  | VStr s =>
      match no_id_provided v with
      | Ret false =>
          if re_match_id (strip s) then [profile_request (strip s)] else []
      | _ => []
      end
  | _ => []
  end.

(** A session whose cache is not empty. *)
Definition world_cached : world :=
  {| sent := []; cache := {[ py "octocat" := VInt 7 ]} |}.

(** ** Proof steps used throughout *)

Ltac bool_to_prop H :=
  repeat first
    [ rewrite orb_true_iff in H | rewrite andb_true_iff in H
    | rewrite N.leb_le in H | rewrite N.eqb_eq in H ].

(** Unfolds the two monads down to pairs and matches. *)
Ltac run_monad :=
  unfold try_except, lift, mbind, mret, M_bind, M_ret, outcome_bind, outcome_ret;
  cbn.

(** * Properties *)

(** ** Strings *)

Lemma id_char_not_space c : id_char c = true -> isspace c = false.
Proof.
  intros H. apply not_true_is_false. intros Hs.
  unfold id_char in H. unfold isspace in Hs.
  bool_to_prop H. bool_to_prop Hs. lia.
Qed.

Lemma lstrip_head s c r : lstrip s = c :: r -> isspace c = false.
Proof.
  induction s as [|a s IH]; simpl; [discriminate|].
  destruct (isspace a) eqn:Ha; [exact IH|].
  intros [= <- _]. exact Ha.
Qed.

Lemma lstrip_all_space s : forallb isspace s = true -> lstrip s = [].
Proof.
  induction s as [|a s IH]; simpl; [reflexivity|].
  intros [Ha Hs]%andb_true_iff. rewrite Ha. auto.
Qed.

Lemma lstrip_no_space s : forallb (fun c => negb (isspace c)) s = true -> lstrip s = s.
Proof.
  destruct s as [|a s]; simpl; [reflexivity|].
  intros [Ha _]%andb_true_iff. apply negb_true_iff in Ha. now rewrite Ha.
Qed.

Lemma forallb_rev {A} (P : A -> bool) (l : list A) :
  forallb P (rev l) = forallb P l.
Proof.
  induction l as [|a l IH]; simpl; [reflexivity|].
  rewrite forallb_app, IH. simpl. rewrite andb_true_r. apply andb_comm.
Qed.

Lemma last_rev {A} (l : list A) : last (rev l) = head l.
Proof. destruct l as [|a l]; simpl; [reflexivity|apply last_snoc]. Qed.

(** A string of blanks (the empty one among them) strips to nothing. *)
Lemma strip_all_space s : forallb isspace s = true -> strip s = [].
Proof.
  intros H. unfold strip, rstrip. now rewrite (lstrip_all_space s H).
Qed.

(** A string without blanks is its own strip. *)
Lemma strip_no_space s :
  forallb (fun c => negb (isspace c)) s = true -> strip s = s.
Proof.
  intros H. unfold strip, rstrip.
  rewrite (lstrip_no_space s H), lstrip_no_space, rev_involutive; [reflexivity|].
  now rewrite forallb_rev.
Qed.

(** What [strip] returns does not end in a blank. *)
Lemma strip_last s c : last (strip s) = Some c -> isspace c = false.
Proof.
  unfold strip, rstrip. rewrite last_rev.
  destruct (lstrip (rev (lstrip s))) as [|a r] eqn:E; simpl; [discriminate|].
  intros [= <-]. exact (lstrip_head _ _ _ E).
Qed.

Lemma skip_id_chars_nil s : skip_id_chars s = [] <-> forallb id_char s = true.
Proof.
  induction s as [|a s IH]; simpl; [tauto|].
  destruct (id_char a); simpl; [exact IH|]. split; discriminate.
Qed.

Lemma skip_id_chars_last s t c :
  skip_id_chars s = t -> last t = Some c -> last s = Some c.
Proof.
  revert t. induction s as [|a s IH]; simpl; intros t.
  - now intros <-.
  - destruct (id_char a).
    + intros Ht Hc. specialize (IH _ Ht Hc).
      destruct s; [discriminate|]. exact IH.
    + now intros <-.
Qed.

(** On a string that does not end in a newline, the pattern accepts
    exactly the non-empty strings made of the class. *)
Lemma re_match_id_spec s :
  last s <> Some 0x0A ->
  re_match_id s = true <-> s <> [] /\ forallb id_char s = true.
Proof.
  intros Hlast. destruct s as [|a s]; [simpl; split; [discriminate|tauto]|].
  unfold re_match_id. cbv zeta.
  rewrite andb_true_iff, orb_true_iff, !bool_decide_eq_true. split.
  - intros [Ha [H|H]]; (split; [discriminate|]).
    + now apply skip_id_chars_nil.
    + exfalso. apply Hlast. now apply (skip_id_chars_last _ _ _ H).
  - intros [_ H]. pose proof H as H'. apply skip_id_chars_nil in H'.
    simpl in H. apply andb_true_iff in H. tauto.
Qed.

Lemma re_match_id_strip s :
  re_match_id (strip s) = true <-> strip s <> [] /\ forallb id_char (strip s) = true.
Proof.
  apply re_match_id_spec. intros H. now apply strip_last in H.
Qed.

(** ** The scraper, step by step *)

Lemma append_loop {A B} (f : A -> B) (l : list A) (acc : list B) :
  fold_left (fun acc x => acc ++ [f x]) l acc = acc ++ map f l.
Proof.
  revert acc. induction l as [|a l IH]; intros acc; simpl.
  - now rewrite app_nil_r.
  - now rewrite IH, <- app_assoc.
Qed.

Lemma no_id_provided_str s :
  no_id_provided (VStr s) =
  Ret (bool_decide (s = []) || bool_decide (lower (strip s) = py "none")
       || bool_decide (strip s = [])).
Proof.
  unfold no_id_provided, mbind, mret, outcome_bind, outcome_ret. cbn.
  destruct (bool_decide (s = [])); cbn; [reflexivity|].
  now destruct (bool_decide (lower (strip s) = _)).
Qed.

Section ScraperFacts.

Variable net : nat -> request -> outcome response.

Lemma scrape_github_missing v w :
  no_id_provided v = Ret true ->
  scrape_github net v w = (Ret (error_result (py "No GitHub ID provided")), w).
Proof. intros H. unfold scrape_github. run_monad. now rewrite H. Qed.

Lemma scrape_github_present v w :
  no_id_provided v = Ret false ->
  scrape_github net v w = try_except (scrape_try net v) (scrape_except) w.
Proof. intros H. unfold scrape_github. run_monad. now rewrite H. Qed.

Lemma scrape_except_handled e w : scrape_except e w = (Ret (handled e), w).
Proof.
  unfold scrape_except, handled. now destruct (is_request_exception _).
Qed.

(** A string that fails the pattern is turned down before any request. *)
Lemma scrape_github_bad_format s w :
  no_id_provided (VStr s) = Ret false ->
  re_match_id (strip s) = false ->
  scrape_github net (VStr s) w =
  (Ret (error_result (py "Invalid GitHub ID format")), w).
Proof.
  intros Hm Hre. rewrite (scrape_github_present _ _ Hm).
  unfold scrape_try. run_monad. now rewrite Hre.
Qed.

(** A string that passes it costs one request, and the answer decides. *)
Lemma scrape_github_fetch s w :
  no_id_provided (VStr s) = Ret false ->
  re_match_id (strip s) = true ->
  scrape_github net (VStr s) w =
  (Ret (fetched (strip s)
          (net (length (sent w)) (profile_request (strip s)))),
   after_request w (profile_request (strip s))).
Proof.
  intros Hm Hre. rewrite (scrape_github_present _ _ Hm).
  unfold scrape_try, requests_get. run_monad. rewrite Hre. cbn.
  fold (profile_request (strip s)).
  fold (after_request w (profile_request (strip s))).
  destruct (net _ _) as [r|e]; cbn; [|apply scrape_except_handled].
  destruct (raise_for_status r) as [[]|e]; cbn; [|apply scrape_except_handled].
  unfold page_result. destruct (find (content r) _ _ _) as [c|]; cbn; [|reflexivity].
  rewrite append_loop. cbn [app]. now rewrite length_map.
Qed.

(** A value that is not a string dies on [.strip()]. *)
Lemma scrape_github_not_str v w :
  no_id_provided v = Ret false ->
  (forall s, v <> VStr s) ->
  scrape_github net v w =
  (Ret (error_result (py "Scraping error: '" ++ type_name v
                      ++ py "' object has no attribute 'strip'")), w).
Proof.
  intros Hm Hv. rewrite (scrape_github_present _ _ Hm).
  unfold scrape_try. run_monad.
  destruct v; try reflexivity. now destruct (Hv s).
Qed.

End ScraperFacts.

(** ** Validation *)

Lemma lower_of_fold t u :
  map ascii_fold t = u ->
  forallb (fun x => (0x61 <=? x) && (x <=? 0x7A)) u = true ->
  lower t = u.
Proof.
  revert u. induction t as [|c t IH]; intros u; simpl.
  - now intros <-.
  - intros <-. simpl. intros [Hc Ht]%andb_true_iff.
    unfold lower. simpl. fold (lower t). rewrite (IH _ eq_refl Ht).
    unfold ascii_fold in *. unfold lower_char.
    destruct ((0x41 <=? c) && (c <=? 0x5A)) eqn:E; [reflexivity|].
    bool_to_prop Hc.
    assert ((c =? 0x130) = false) as -> by (apply N.eqb_neq; lia).
    assert ((c =? 0x212A) = false) as -> by (apply N.eqb_neq; lia).
    reflexivity.
Qed.

Lemma lower_none t :
  equal_ignoring_case t (py "none") = true -> lower t = py "none".
Proof.
  unfold equal_ignoring_case. rewrite bool_decide_eq_true. intros H.
  apply lower_of_fold; [exact H|reflexivity].
Qed.

(** C3: an identifier that is absent ([None], or the NaN of an empty
    cell), empty, made of blanks only, or equal to none up to case once
    trimmed, yields the dict with the fixed message No GitHub ID
    provided, count 0 and no repositories, and the session is left as it
    was: no request is sent. *)
Theorem missing_id_short_circuit
    (net : nat -> request -> outcome response) (v : pyval) (w : world) :
  v = VNone \/ v = VNaN \/
  (exists s, v = VStr s /\
     (forallb isspace s = true \/
      equal_ignoring_case (strip s) (py "none") = true)) ->
  scrape_github net v w =
  (Ret {| error := Some (py "No GitHub ID provided"); count := 0; repos := [] |},
   w).
Proof.
  intros H. apply scrape_github_missing.
  destruct H as [->|[->|(s & -> & H)]]; [reflexivity|reflexivity|].
  rewrite no_id_provided_str. f_equal.
  destruct H as [H|H].
  - rewrite (strip_all_space s H). cbn. apply orb_true_r.
  - rewrite (lower_none _ H).
    destruct (bool_decide (s = [])); cbn; [reflexivity|].
    now rewrite bool_decide_eq_true_2 by reflexivity.
Qed.

Lemma missing_id_short_circuit_witness :
  scrape_github net_down (VStr (py "  NoNe ")) world0 =
  (Ret {| error := Some (py "No GitHub ID provided"); count := 0; repos := [] |},
   world0).
Proof.
  apply missing_id_short_circuit. right. right.
  exists (py "  NoNe "). split; [reflexivity|]. right. vm_compute. reflexivity.
Defined.

Lemma error_kinds_apart cause :
  py "Network error: " ++ cause <> py "Invalid GitHub ID format" /\
  py "Network error: " ++ cause <> py "No GitHub ID provided" /\
  py "Scraping error: " ++ cause <> py "Invalid GitHub ID format" /\
  py "Scraping error: " ++ cause <> py "No GitHub ID provided".
Proof. repeat split; intros H; vm_compute in H; discriminate H. Qed.

Lemma fetched_not_validation id answer :
  error (fetched id answer) <> Some (py "Invalid GitHub ID format") /\
  error (fetched id answer) <> Some (py "No GitHub ID provided").
Proof.
  assert (forall e, error (handled e) <> Some (py "Invalid GitHub ID format") /\
                    error (handled e) <> Some (py "No GitHub ID provided")) as Hh.
  { intros e. unfold handled.
    destruct (error_kinds_apart (exn_msg e)) as (?&?&?&?).
    destruct (is_request_exception _); cbn; split; congruence. }
  unfold fetched. destruct answer as [r|e]; [|apply Hh].
  destruct (raise_for_status r); [|apply Hh].
  unfold page_result. destruct (find _ _ _ _); cbn.
  - split; discriminate.
  - split; intros H; vm_compute in H; discriminate H.
Qed.

(** C2: for a string that passes the missing-value test, a trimmed value
    with a character outside [A-Za-z0-9-] (any code point, ASCII or not)
    yields the dict with Invalid GitHub ID format, count 0 and an
    untouched session (no request, no exception); a trimmed value made
    of the class only passes validation: exactly one request is sent,
    its URL embeds the trimmed string unchanged, and the result is not a
    validation error. *)
Theorem format_validation
    (net : nat -> request -> outcome response) (s : pystr) (w : world) :
  no_id_provided (VStr s) = Ret false ->
  ((exists c, In c (strip s) /\ id_char c = false) ->
   scrape_github net (VStr s) w =
   (Ret {| error := Some (py "Invalid GitHub ID format"); count := 0; repos := [] |},
    w))
  /\
  (forallb id_char (strip s) = true ->
   exists r,
     scrape_github net (VStr s) w =
     (Ret r,
      {| sent := sent w ++
           [{| req_url := py "https://github.com/" ++ strip s ++ py "?tab=repositories";
               req_user_agent := user_agent; req_timeout := 10 |}];
         cache := cache w |})
     /\ error r <> Some (py "Invalid GitHub ID format")
     /\ error r <> Some (py "No GitHub ID provided")).
Proof.
  intros Hm. split.
  - intros (c & Hin & Hc). apply scrape_github_bad_format; [exact Hm|].
    apply not_true_is_false. intros [_ Hall]%re_match_id_strip.
    rewrite forallb_forall in Hall. specialize (Hall c Hin). congruence.
  - intros Hall.
    assert (strip s <> []) as Hne.
    { rewrite no_id_provided_str in Hm. injection Hm as Hm.
      apply orb_false_iff in Hm as [_ Hm].
      now apply bool_decide_eq_false in Hm. }
    assert (re_match_id (strip s) = true) as Hre
      by (apply re_match_id_strip; split; assumption).
    eexists. split; [apply (scrape_github_fetch net s w Hm Hre)|].
    apply fetched_not_validation.
Qed.

Lemma format_validation_witness :
  scrape_github net_down (VStr (py " octo cat ")) world0 =
  (Ret {| error := Some (py "Invalid GitHub ID format"); count := 0; repos := [] |},
   world0).
Proof.
  apply (format_validation net_down (py " octo cat ") world0).
  - reflexivity.
  - exists 32. split; [|reflexivity]. vm_compute. tauto.
Defined.

(** ** Values that are not strings *)

Lemma str_of_uint_chars d :
  forallb (fun c => ((0x30 <=? c) && (c <=? 0x39)) || (c =? 0x2D)) (str_of_uint d) = true.
Proof. induction d; simpl; auto. Qed.

Lemma str_of_int_chars n :
  forallb (fun c => ((0x30 <=? c) && (c <=? 0x39)) || (c =? 0x2D)) (str_of_int n) = true.
Proof.
  unfold str_of_int. destruct (Z.to_int n); simpl; apply str_of_uint_chars.
Qed.

Lemma str_of_int_not_empty n : str_of_int n <> [].
Proof.
  unfold str_of_int. destruct n as [|p|p]; simpl; try discriminate.
  pose proof (Unsigned.to_uint_nonnil p) as H.
  destruct (Pos.to_uint p); simpl; congruence.
Qed.

(** A non-zero integer cell passes the missing-value test. *)
Lemma nonzero_int_survives n : n <> 0%Z -> no_id_provided (VInt n) = Ret false.
Proof.
  intros Hn. unfold no_id_provided, mbind, mret, outcome_bind, outcome_ret. cbn.
  apply Z.eqb_neq in Hn. rewrite Hn. cbn.
  pose proof (str_of_int_chars n) as Hc.
  pose proof (str_of_int_not_empty n) as Hne.
  assert (strip (str_of_int n) = str_of_int n) as ->.
  { apply strip_no_space. rewrite forallb_forall in *. intros c Hin.
    specialize (Hc c Hin). apply negb_true_iff, not_true_is_false. intros Hs.
    unfold isspace in Hs. bool_to_prop Hc. bool_to_prop Hs. lia. }
  destruct (str_of_int n) as [|c r]; [congruence|].
  simpl in Hc. apply andb_true_iff in Hc as [Hc _].
  rewrite (bool_decide_eq_false_2 (c :: r = [])) by discriminate.
  rewrite bool_decide_eq_false_2; [reflexivity|].
  unfold lower. simpl. unfold lower_char.
  bool_to_prop Hc.
  assert ((0x41 <=? c) && (c <=? 0x5A) = false) as ->.
  { apply not_true_is_false. intros H. bool_to_prop H. lia. }
  assert ((c =? 0x130) = false) as -> by (apply N.eqb_neq; lia).
  assert ((c =? 0x212A) = false) as -> by (apply N.eqb_neq; lia).
  intros H. vm_compute in H. injection H as H _. lia.
Qed.

(** C10: a value that is not a string and passes the missing-value test
    (a non-zero integer cell, [True]) raises inside the [try] block on
    [.strip()], and the generic handler reports a Scraping error with
    count 0, not an Invalid GitHub ID format; no request is sent. *)
Theorem non_string_is_scraping_error
    (net : nat -> request -> outcome response) (v : pyval) (w : world) :
  (forall s, v <> VStr s) ->
  no_id_provided v = Ret false ->
  scrape_github net v w =
  (Ret {| error := Some (py "Scraping error: '" ++ type_name v
                         ++ py "' object has no attribute 'strip'");
          count := 0; repos := [] |},
   w).
Proof. intros Hv Hm. now apply scrape_github_not_str. Qed.

Lemma non_string_is_scraping_error_witness :
  scrape_github net_down (VInt 20250101) world0 =
  (Ret {| error := Some (py "Scraping error: 'int' object has no attribute 'strip'");
          count := 0; repos := [] |},
   world0).
Proof.
  apply (non_string_is_scraping_error net_down (VInt 20250101) world0).
  - intros s; discriminate.
  - reflexivity.
Defined.

(** Every non-zero integer cell ends that way. *)
Corollary numeric_cell_is_scraping_error
    (net : nat -> request -> outcome response) (n : Z) (w : world) :
  n <> 0%Z ->
  scrape_github net (VInt n) w =
  (Ret (error_result (py "Scraping error: 'int' object has no attribute 'strip'")),
   w).
Proof.
  intros Hn. apply (scrape_github_not_str net (VInt n) w).
  - now apply nonzero_int_survives.
  - intros s; discriminate.
Qed.

(** ** The fetch *)

Lemma raise_for_status_2xx r :
  (200 <= status_code r < 300)%Z -> raise_for_status r = Ret tt.
Proof.
  intros H. unfold raise_for_status.
  assert ((400 <=? status_code r)%Z = false) as -> by (apply Z.leb_gt; lia).
  assert ((500 <=? status_code r)%Z = false) as -> by (apply Z.leb_gt; lia).
  reflexivity.
Qed.

Lemma raise_for_status_error r :
  (400 <= status_code r < 600)%Z ->
  exists cause,
    raise_for_status r = Raise {| exn_class := HTTPError; exn_msg := cause |}.
Proof.
  intros H. unfold raise_for_status.
  destruct (400 <=? status_code r)%Z eqn:E4; [|apply Z.leb_gt in E4; lia].
  destruct (status_code r <? 500)%Z eqn:E5; cbn; [eauto|].
  apply Z.ltb_ge in E5.
  assert ((500 <=? status_code r)%Z = true) as -> by (apply Z.leb_le; lia).
  assert ((status_code r <? 600)%Z = true) as -> by (apply Z.ltb_lt; lia).
  cbn. eauto.
Qed.

Lemma raise_for_status_other r :
  ~ (400 <= status_code r < 600)%Z -> raise_for_status r = Ret tt.
Proof.
  intros H. unfold raise_for_status.
  destruct ((400 <=? status_code r) && (status_code r <? 500))%Z eqn:E4.
  { apply andb_true_iff in E4 as [H1 H2].
    apply Z.leb_le in H1. apply Z.ltb_lt in H2. lia. }
  destruct ((500 <=? status_code r) && (status_code r <? 600))%Z eqn:E5.
  { apply andb_true_iff in E5 as [H1 H2].
    apply Z.leb_le in H1. apply Z.ltb_lt in H2. lia. }
  reflexivity.
Qed.

(** C4, as the code has it: when the one GET raises an exception of the
    [RequestException] family, or answers with a 4xx or 5xx status (404
    among them), the result is the dict whose message is Network error:
    followed by the text of the cause, with count 0, and exactly one
    request was sent (no retry).  A final answer with any other status
    (2xx, but also 300 or 304) passes [raise_for_status] and its page is
    parsed in the one way there is: No repositories found without the
    container, a success with the source entries otherwise. *)
Theorem network_failure_is_reported
    (net : nat -> request -> outcome response) (s : pystr) (w : world) :
  no_id_provided (VStr s) = Ret false ->
  re_match_id (strip s) = true ->
  (forall e,
     net (length (sent w)) (profile_request (strip s)) = Raise e ->
     is_request_exception (exn_class e) = true ->
     scrape_github net (VStr s) w =
     (Ret {| error := Some (py "Network error: " ++ exn_msg e); count := 0;
             repos := [] |},
      {| sent := sent w ++ [profile_request (strip s)]; cache := cache w |}))
  /\
  (forall r,
     net (length (sent w)) (profile_request (strip s)) = Ret r ->
     (400 <= status_code r < 600)%Z ->
     exists cause,
       raise_for_status r = Raise {| exn_class := HTTPError; exn_msg := cause |}
       /\ scrape_github net (VStr s) w =
          (Ret {| error := Some (py "Network error: " ++ cause); count := 0;
                  repos := [] |},
           {| sent := sent w ++ [profile_request (strip s)]; cache := cache w |}))
  /\
  (forall r,
     net (length (sent w)) (profile_request (strip s)) = Ret r ->
     ~ (400 <= status_code r < 600)%Z ->
     raise_for_status r = Ret tt
     /\ scrape_github net (VStr s) w =
        (Ret (match find (content r) (py "div") (py "id")
                         (py "user-repositories-list") with
             | None =>
                 {| error := Some (py "No repositories found"); count := 0;
                    repos := [] |}
             | Some container =>
                 {| error := None;
                    count := Z.of_nat
                               (length (find_all container (py "li")
                                          (py "class") (py "source")));
                    repos := map (extract_repo (strip s))
                                 (find_all container (py "li") (py "class")
                                    (py "source")) |}
             end),
         {| sent := sent w ++ [profile_request (strip s)]; cache := cache w |})).
Proof.
  intros Hm Hre. split; [|split].
  - intros e Hnet He. rewrite (scrape_github_fetch net s w Hm Hre), Hnet.
    cbn. unfold handled. now rewrite He.
  - intros r Hnet Hst. destruct (raise_for_status_error r Hst) as [cause Hc].
    exists cause. split; [exact Hc|].
    rewrite (scrape_github_fetch net s w Hm Hre), Hnet. cbn. now rewrite Hc.
  - intros r Hnet Hst. pose proof (raise_for_status_other r Hst) as Hok.
    split; [exact Hok|].
    rewrite (scrape_github_fetch net s w Hm Hre), Hnet. cbn. rewrite Hok.
    unfold page_result, after_request.
    now destruct (find (content r) _ _ _).
Qed.

Lemma network_failure_is_reported_witness :
  scrape_github (net_page 404 (py "Not Found") page_empty)
    (VStr (py "octocat")) world0 =
  (Ret {| error := Some (py "Network error: 404 Client Error: Not Found for url: https://github.com/octocat?tab=repositories");
          count := 0; repos := [] |},
   {| sent := [octocat_request]; cache := ∅ |}).
Proof.
  destruct (network_failure_is_reported
              (net_page 404 (py "Not Found") page_empty) (py "octocat") world0
              eq_refl eq_refl) as (_ & H & _).
  destruct (H (respond 404 (py "Not Found") page_empty) eq_refl
              ltac:(cbn; lia)) as (cause & Hc & Hs).
  vm_compute in Hc. injection Hc as <-. exact Hs.
Defined.

(** C4 as stated fails: a 300 answer is outside 2xx, passes
    [raise_for_status], and its page is scraped like any other. *)
Lemma non_2xx_not_always_network_error : ~ every_non_2xx_is_network_error.
Proof.
  intros H.
  destruct (H (net_page 300 (py "Multiple Choices") (page_of [entry_hello]))
              (py "octocat") world0
              (respond 300 (py "Multiple Choices") (page_of [entry_hello]))
              eq_refl eq_refl eq_refl ltac:(cbn; lia)) as [cause Hc].
  vm_compute in Hc. discriminate Hc.
Qed.

(** What the scraper returns on that 300 answer. *)
Example status_300_is_scraped :
  fst (scrape_github
         (net_page 300 (py "Multiple Choices") (page_of [entry_hello]))
         (VStr (py "octocat")) world0) =
  Ret {| error := None; count := 1;
         repos := [ {| name := py "hello-world";
                       link := py "https://github.com/octocat/hello-world";
                       language := py "Python";
                       description := py "My first repo" |} ] |}.
Proof. vm_compute. reflexivity. Qed.

(** C5: a 2xx answer whose page has no repository-list container yields
    the dict with No repositories found and count 0; nothing is raised,
    and one request was sent. *)
Theorem no_container_is_reported
    (net : nat -> request -> outcome response) (s : pystr) (w : world)
    (r : response) :
  no_id_provided (VStr s) = Ret false ->
  re_match_id (strip s) = true ->
  net (length (sent w)) (profile_request (strip s)) = Ret r ->
  (200 <= status_code r < 300)%Z ->
  find (content r) (py "div") (py "id") (py "user-repositories-list") = None ->
  scrape_github net (VStr s) w =
  (Ret {| error := Some (py "No repositories found"); count := 0; repos := [] |},
   {| sent := sent w ++ [profile_request (strip s)]; cache := cache w |}).
Proof.
  intros Hm Hre Hnet Hst Hfind.
  rewrite (scrape_github_fetch net s w Hm Hre), Hnet. cbn.
  rewrite (raise_for_status_2xx r Hst). unfold page_result. now rewrite Hfind.
Qed.

Lemma no_container_is_reported_witness :
  scrape_github (net_page 200 (py "OK") page_empty) (VStr (py "octocat")) world0 =
  (Ret {| error := Some (py "No repositories found"); count := 0; repos := [] |},
   {| sent := [octocat_request]; cache := ∅ |}).
Proof.
  apply (no_container_is_reported (net_page 200 (py "OK") page_empty)
           (py "octocat") world0 (respond 200 (py "OK") page_empty)).
  - reflexivity.
  - reflexivity.
  - reflexivity.
  - cbn. lia.
  - reflexivity.
Defined.

(** ** Extraction *)

Lemma filter_none {A} (f : A -> bool) (l : list A) :
  Forall (fun x => f x = false) l -> List.filter f l = [].
Proof.
  induction 1 as [|x l Hx _ IH]; simpl; [reflexivity|]. now rewrite Hx.
Qed.

Lemma Forall2_map_of {A B} (P : A -> B -> Prop) (f : A -> B) (l : list A) :
  (forall x, P x (f x)) -> Forall2 P l (map f l).
Proof. intros H. induction l; simpl; constructor; auto. Qed.

(** C6: when the container is present, the result is a success whose
    records are the images, in document order and with repetitions kept,
    of the [li] descendants of the container carrying the [source]
    class; the others are skipped.  With no such entry the success has an
    empty list and count 0. *)
Theorem entries_in_document_order
    (net : nat -> request -> outcome response) (s : pystr) (w : world)
    (r : response) (container : node) :
  no_id_provided (VStr s) = Ret false ->
  re_match_id (strip s) = true ->
  net (length (sent w)) (profile_request (strip s)) = Ret r ->
  (200 <= status_code r < 300)%Z ->
  find (content r) (py "div") (py "id") (py "user-repositories-list")
    = Some container ->
  let entries :=
    List.filter (search_tag (py "li") (py "class") (py "source"))
                (descendants container) in
  fst (scrape_github net (VStr s) w) =
    Ret {| error := None; count := Z.of_nat (length entries);
           repos := map (extract_repo (strip s)) entries |}
  /\
  (Forall (fun d => search_tag (py "li") (py "class") (py "source") d = false)
          (descendants container) ->
   fst (scrape_github net (VStr s) w) =
     Ret {| error := None; count := 0; repos := [] |}).
Proof.
  intros Hm Hre Hnet Hst Hfind entries.
  assert (fst (scrape_github net (VStr s) w) =
          Ret {| error := None; count := Z.of_nat (length entries);
                 repos := map (extract_repo (strip s)) entries |}) as Hres.
  { rewrite (scrape_github_fetch net s w Hm Hre), Hnet. cbn.
    rewrite (raise_for_status_2xx r Hst). unfold page_result.
    now rewrite Hfind. }
  split; [exact Hres|].
  intros Hnone. rewrite Hres. subst entries.
  now rewrite (filter_none _ _ Hnone).
Qed.

Lemma entries_in_document_order_witness :
  fst (scrape_github
         (net_page 200 (py "OK") (page_of [entry_fork; entry_bare; entry_fork]))
         (VStr (py "octocat")) world0) =
  Ret {| error := None; count := 1;
         repos := [{| name := py "Unknown"; link := [];
                      language := py "Unknown"; description := [] |}] |}.
Proof.
  destruct (entries_in_document_order
              (net_page 200 (py "OK") (page_of [entry_fork; entry_bare; entry_fork]))
              (py "octocat") world0
              (respond 200 (py "OK") (page_of [entry_fork; entry_bare; entry_fork]))
              (Tag (py "div") {[ py "id" := AttrStr (py "user-repositories-list") ]}
                 [ Tag (py "ul") ∅ [entry_fork; entry_bare; entry_fork] ])
              eq_refl eq_refl eq_refl ltac:(cbn; lia) eq_refl) as [H _].
  exact H.
Defined.

(** The same entry listed twice gives two records. *)
Example repeated_entry_kept :
  fst (scrape_github
         (net_page 200 (py "OK") (page_of [entry_hello; entry_fork; entry_hello]))
         (VStr (py "octocat")) world0) =
  Ret {| error := None; count := 2;
         repos := [ {| name := py "hello-world";
                       link := py "https://github.com/octocat/hello-world";
                       language := py "Python";
                       description := py "My first repo" |};
                    {| name := py "hello-world";
                       link := py "https://github.com/octocat/hello-world";
                       language := py "Python";
                       description := py "My first repo" |} ] |}.
Proof. vm_compute. reflexivity. Qed.

(** C1: every record of a successful scrape comes from one source entry,
    and its four fields are filled independently: the name is the
    trimmed text of the name link, or Unknown without one; the link is
    https://github.com/ followed by the identifier, a slash and the name
    when the name is not Unknown, and empty when it is; the language is
    the trimmed text of the language span, or Unknown; the description
    is the trimmed text of the description paragraph, or empty. *)
Theorem record_fields
    (net : nat -> request -> outcome response) (s : pystr) (w : world)
    (r : response) (container : node) :
  no_id_provided (VStr s) = Ret false ->
  re_match_id (strip s) = true ->
  net (length (sent w)) (profile_request (strip s)) = Ret r ->
  raise_for_status r = Ret tt ->
  find (content r) (py "div") (py "id") (py "user-repositories-list")
    = Some container ->
  exists res,
    fst (scrape_github net (VStr s) w) = Ret res /\
    Forall2
      (fun entry rec =>
         name rec =
           trimmed_text_or (py "Unknown")
             (find entry (py "a") (py "itemprop") (py "name codeRepository"))
         /\ (name rec <> py "Unknown" ->
             link rec = py "https://github.com/" ++ strip s ++ py "/" ++ name rec)
         /\ (name rec = py "Unknown" -> link rec = [])
         /\ language rec =
              trimmed_text_or (py "Unknown")
                (find entry (py "span") (py "itemprop") (py "programmingLanguage"))
         /\ description rec =
              trimmed_text_or []
                (find entry (py "p") (py "itemprop") (py "description")))
      (find_all container (py "li") (py "class") (py "source"))
      (repos res).
Proof.
  intros Hm Hre Hnet Hst Hfind. eexists. split.
  - rewrite (scrape_github_fetch net s w Hm Hre), Hnet. cbn.
    rewrite Hst. unfold page_result. rewrite Hfind. reflexivity.
  - cbn. apply Forall2_map_of. intros entry. unfold extract_repo. cbn.
    repeat split.
    + intros Hn. now rewrite bool_decide_eq_true_2.
    + intros Hn. rewrite bool_decide_eq_false_2; [reflexivity|]. tauto.
Qed.

Lemma record_fields_witness :
  exists res,
    fst (scrape_github
           (net_page 200 (py "OK") (page_of [entry_hello; entry_bare]))
           (VStr (py "octocat")) world0) = Ret res /\
    Forall2
      (fun entry rec =>
         name rec =
           trimmed_text_or (py "Unknown")
             (find entry (py "a") (py "itemprop") (py "name codeRepository"))
         /\ (name rec <> py "Unknown" ->
             link rec = py "https://github.com/" ++ strip (py "octocat")
                        ++ py "/" ++ name rec)
         /\ (name rec = py "Unknown" -> link rec = [])
         /\ language rec =
              trimmed_text_or (py "Unknown")
                (find entry (py "span") (py "itemprop") (py "programmingLanguage"))
         /\ description rec =
              trimmed_text_or []
                (find entry (py "p") (py "itemprop") (py "description")))
      (find_all
         (Tag (py "div") {[ py "id" := AttrStr (py "user-repositories-list") ]}
            [ Tag (py "ul") ∅ [entry_hello; entry_bare] ])
         (py "li") (py "class") (py "source"))
      (repos res).
Proof.
  apply (record_fields
           (net_page 200 (py "OK") (page_of [entry_hello; entry_bare]))
           (py "octocat") world0
           (respond 200 (py "OK") (page_of [entry_hello; entry_bare]))).
  - reflexivity.
  - reflexivity.
  - reflexivity.
  - reflexivity.
  - reflexivity.
Defined.

(** ** The shape of a result *)

Lemma error_result_tagged msg :
  error_kind msg -> well_tagged (error_result msg).
Proof.
  intros Hk. right. exists msg. repeat split; try assumption.
  destruct Hk; reflexivity.
Qed.

Lemma handled_tagged e : well_tagged (handled e).
Proof.
  unfold handled. destruct (is_request_exception _);
    apply error_result_tagged; constructor.
Qed.

Lemma fetched_tagged id answer : well_tagged (fetched id answer).
Proof.
  unfold fetched. destruct answer as [r|e]; [|apply handled_tagged].
  destruct (raise_for_status r); [|apply handled_tagged].
  unfold page_result. destruct (find _ _ _ _).
  - left. cbn. now rewrite length_map.
  - apply error_result_tagged. constructor.
Qed.

Lemma no_id_provided_total v : v <> VNA -> exists b, no_id_provided v = Ret b.
Proof.
  intros Hv. unfold no_id_provided, mbind, mret, outcome_bind, outcome_ret.
  destruct v; cbn; try congruence; eauto;
    repeat match goal with
           | |- context [if ?b then _ else _] => destruct b; cbn
           end; eauto.
Qed.

Lemma scrape_github_tagged net v w :
  match fst (scrape_github net v w) with
  | Ret r => well_tagged r
  | Raise _ => v = VNA
  end.
Proof.
  assert (v = VNA \/ v <> VNA) as [->|Hv]
    by (destruct v; (now left) || (right; discriminate)).
  { reflexivity. }
  destruct (no_id_provided_total v Hv) as [[|] Hb].
  - rewrite (scrape_github_missing net v w Hb). cbn.
    apply error_result_tagged. constructor.
  - destruct v as [|s| | | |].
    2: { destruct (re_match_id (strip s)) eqn:Hre.
         - rewrite (scrape_github_fetch net s w Hb Hre). cbn.
           apply fetched_tagged.
         - rewrite (scrape_github_bad_format net s w Hb Hre). cbn.
           apply error_result_tagged. constructor. }
    all: rewrite (scrape_github_not_str net _ w Hb) by (intros ?; discriminate);
      cbn; apply error_result_tagged;
      match goal with
      | |- error_kind (_ ++ ?rest) => exact (ScrapingError (py "'" ++ rest))
      end.
Qed.

(** C7: whatever the identifier and the network, a dict returned by
    [scrape_github] is either a success (no error, count equal to the
    number of its repositories) or an error of one of the five kinds
    (count 0, no repositories), never both; the only call that returns
    no dict at all is the one on pandas' NA, which raises. *)
Theorem result_is_tagged
    (net : nat -> request -> outcome response) (v : pyval) (w : world) :
  match fst (scrape_github net v w) with
  | Ret r =>
      (error r = None /\ get_error r = false /\
       count r = Z.of_nat (length (repos r)))
      \/
      (exists msg, error r = Some msg /\ get_error r = true /\ error_kind msg /\
                   count r = 0%Z /\ repos r = [])
  | Raise _ => v = VNA
  end.
Proof. exact (scrape_github_tagged net v w). Qed.

(** ** The row loop *)

Lemma row_step_spec net i r results errors w :
  let step := scrape_github net (github_id_cell r)
                {| sent := sent w; cache := ∅ |} in
  exists errors',
    row_step net i r (results, errors) w =
    (Ret (results ++ [{| github := at_row_boundary (fst step) |}], errors'),
     snd step).
Proof.
  unfold row_step, process_row, cache_clear. run_monad.
  destruct (scrape_github _ _ _) as [[res|e] w1]; cbn; eexists; reflexivity.
Qed.

Lemma process_rows_spec net rows : forall i results errors w,
  exists errors',
    process_rows net i rows (results, errors) w =
    (Ret (results ++ map (fun res => {| github := res |})
                         (fst (one_fetch_per_row net rows w)),
          errors'),
     snd (one_fetch_per_row net rows w)).
Proof.
  induction rows as [|r rows IH]; intros i results errors w.
  - exists errors. cbn. now rewrite app_nil_r.
  - destruct (row_step_spec net i r results errors w) as [errors1 Hstep].
    cbn [process_rows one_fetch_per_row fst snd].
    unfold mbind, M_bind at 1. rewrite Hstep.
    destruct (IH (S i) (results ++ [{| github := at_row_boundary
         (fst (scrape_github net (github_id_cell r)
                 {| sent := sent w; cache := ∅ |})) |}]) errors1
         (snd (scrape_github net (github_id_cell r)
                 {| sent := sent w; cache := ∅ |}))) as [errors2 Hrest].
    exists errors2. rewrite Hrest. cbn [map]. now rewrite <- app_assoc.
Qed.

Lemma one_fetch_per_row_length net rows : forall w,
  length (fst (one_fetch_per_row net rows w)) = length rows.
Proof. induction rows as [|r rows IH]; intros w; cbn; [reflexivity|]. now rewrite IH. Qed.

Lemma one_fetch_per_row_each net rows : forall w,
  Forall2 (fun r res =>
             exists w_i,
               res = at_row_boundary
                       (fst (scrape_github net (github_id_cell r) w_i)))
          rows (fst (one_fetch_per_row net rows w)).
Proof.
  induction rows as [|r rows IH]; intros w; cbn; constructor; eauto.
Qed.

(** C9: the row loop ends normally on every batch and leaves exactly one
    result per row, in row order: the dict [scrape_github] returned for
    that row's identifier, or, when the call raised, the zero-count
    Processing error dict; a row that raises does not stop the rows
    after it. *)
Theorem one_result_per_row
    (net : nat -> request -> outcome response) (rows : list row) (w : world) :
  exists results errors,
    process_rows net 0 rows ([], []) w =
      (Ret (results, errors), snd (one_fetch_per_row net rows w))
    /\ map github results = fst (one_fetch_per_row net rows w)
    /\ length results = length rows
    /\ Forall2
         (fun r res =>
            exists w_i,
              match fst (scrape_github net (github_id_cell r) w_i) with
              | Ret fetched_r => github res = fetched_r
              | Raise _ =>
                  github res =
                  {| error := Some (py "Processing error"); count := 0;
                     repos := [] |}
              end)
         rows results.
Proof.
  destruct (process_rows_spec net rows 0 [] [] w) as [errors H].
  exists (map (fun res => {| github := res |})
              (fst (one_fetch_per_row net rows w))), errors.
  split; [exact H|].
  rewrite map_map. cbn. rewrite map_id.
  split; [reflexivity|]. split.
  - now rewrite length_map, one_fetch_per_row_length.
  - pose proof (one_fetch_per_row_each net rows w) as Heach. clear H.
    induction Heach as [|r res rows' l [w_i Hres] _ IH]; cbn; constructor.
    + exists w_i. cbn. rewrite Hres.
      now destruct (fst (scrape_github net (github_id_cell r) w_i)).
    + exact IH.
Qed.

(** The row after a raising row is still processed. *)
Example batch_survives_bad_row :
  fst (process_rows (net_page 200 (py "OK") (page_of [entry_bare]))
         0 batch_with_na ([], []) world0) =
  Ret ([ {| github := {| error := None; count := 1;
                         repos := [{| name := py "Unknown"; link := [];
                                      language := py "Unknown";
                                      description := [] |}] |} |};
         {| github := error_result (py "Processing error") |};
         {| github := error_result (py "No GitHub ID provided") |} ],
       [ py "Row 2 (Alan_Turing): Processing error - boolean value of NA is ambiguous";
         py "Row 3 (Grace_Hopper): No GitHub ID provided" ]).
Proof. vm_compute. reflexivity. Qed.

(** ** The exported frame *)

Lemma fillna_not_na v : isna (fillna v) = false.
Proof. now destruct v. Qed.

Lemma truth_total v : isna v = false -> exists b, truth v = Ret b.
Proof. destruct v; cbn; intros H; try discriminate; eauto. Qed.

Lemma one_fetch_per_row_clean net rows : forall w,
  Forall (fun r => isna (github_id_cell r) = false) rows ->
  Forall2 (fun r res =>
             well_tagged res /\
             exists w_i,
               fst (scrape_github net (github_id_cell r) w_i) = Ret res)
          rows (fst (one_fetch_per_row net rows w)).
Proof.
  induction rows as [|r rows IH]; intros w Hrows; cbn; constructor.
  - inversion_clear Hrows as [|? ? Hr _].
    pose proof (scrape_github_tagged net (github_id_cell r)
                  {| sent := sent w; cache := ∅ |}) as Ht.
    destruct (fst (scrape_github net (github_id_cell r) _)) as [res|e] eqn:E.
    + cbn. split; [exact Ht|]. eauto.
    + rewrite Ht in Hr. discriminate.
  - inversion_clear Hrows. now apply IH.
Qed.

Lemma results_rows_full (Q : row -> result -> Prop) rows :
  forall (l : list result) (pre : list row_result),
  Forall2 (fun r res =>
             isna (github_id_cell r) = false /\ well_tagged res /\ Q r res)
          rows l ->
  exists outs,
    results_rows (pre ++ map (fun res => {| github := res |}) l)
                 (length pre) rows = Ret outs
    /\ Forall2
         (fun r o =>
            exists res,
              Q r res /\
              o = {| out_first_name := first_name r;
                     out_last_name := last_name r;
                     out_github_id :=
                       match truth (github_id_cell r) with
                       | Ret false => VStr (py "None")
                       | _ => github_id_cell r
                       end;
                     out_github_repos :=
                       match error res with
                       | Some msg => VStr msg
                       | None => VInt (count res)
                       end |})
         rows outs.
Proof.
  induction rows as [|r rows IH]; intros l pre Hl.
  - inversion Hl; subst. exists []. split; [reflexivity|constructor].
  - inversion Hl as [|? res ? l' (Hr & Hres & HQ) Hrest]; subst.
    destruct (truth_total _ Hr) as [t Ht].
    destruct (IH l' (pre ++ [{| github := res |}])) as (outs & Houts & Hcells);
      [exact Hrest|].
    rewrite length_app, Nat.add_1_r, <- app_assoc in Houts. cbn [app] in Houts.
    cbn [results_rows map]. unfold results_row.
    unfold mbind, mret, outcome_bind, outcome_ret. rewrite Ht.
    rewrite list_lookup_middle by reflexivity. cbn [github].
    rewrite Houts. eexists. split; [reflexivity|].
    constructor; [|exact Hcells].
    exists res. split; [exact HQ|].
    destruct Hres as [(He & Hg & _)|(msg & He & Hg & _)];
      rewrite Hg, He, Ht; now destruct t.
Qed.

(** The row loop and then [results_df], on a frame without missing
    identifier cells: both return, and each exported row is built from
    its frame row and from the dict of that row's own call. *)
Lemma export_of_clean_frame net (df : list row) (w : world) :
  Forall (fun r => isna (github_id_cell r) = false) df ->
  exists results errors w' outs,
    process_rows net 0 df ([], []) w = (Ret (results, errors), w')
    /\ results_df results df = Ret outs
    /\ Forall2
         (fun r o =>
            exists res,
              (exists w_i,
                 fst (scrape_github net (github_id_cell r) w_i) = Ret res)
              /\ o = {| out_first_name := first_name r;
                        out_last_name := last_name r;
                        out_github_id :=
                          match truth (github_id_cell r) with
                          | Ret false => VStr (py "None")
                          | _ => github_id_cell r
                          end;
                        out_github_repos :=
                          match error res with
                          | Some msg => VStr msg
                          | None => VInt (count res)
                          end |})
         df outs.
Proof.
  intros Hclean.
  pose proof (one_fetch_per_row_clean net df w Hclean) as Hfetch.
  destruct (process_rows_spec net df 0 [] [] w) as [errors Hloop].
  destruct (results_rows_full
              (fun r res =>
                 exists w_i, fst (scrape_github net (github_id_cell r) w_i) = Ret res)
              df (fst (one_fetch_per_row net df w)) [])
    as (outs & Houts & Hrows).
  { clear Hloop. induction Hfetch as [|r res rows l [Ht Hw] _ IH];
      [constructor|].
    inversion_clear Hclean. constructor; [tauto|now apply IH]. }
  do 3 eexists. exists outs. split; [exact Hloop|]. split; [exact Houts|].
  exact Hrows.
Qed.

(** C8: on the frame the script loops over (no missing identifier cell
    left), the row loop and the [results_df] comprehension both return,
    [results_df] has one row per frame row, in order, and its GitHub
    Repos cell is the integer count when that row's fetch succeeded and
    the error message string when it failed. *)
Theorem repos_column_is_count_or_message
    (net : nat -> request -> outcome response) (df : list row) (w : world) :
  Forall (fun r => isna (github_id_cell r) = false) df ->
  exists results errors w' outs,
    process_rows net 0 df ([], []) w = (Ret (results, errors), w')
    /\ results_df results df = Ret outs
    /\ length outs = length df
    /\ Forall2
         (fun r o =>
            exists res,
              (exists w_i,
                 fst (scrape_github net (github_id_cell r) w_i) = Ret res)
              /\ (error res = None -> out_github_repos o = VInt (count res))
              /\ (forall msg, error res = Some msg ->
                              out_github_repos o = VStr msg))
         df outs.
Proof.
  intros Hclean.
  destruct (export_of_clean_frame net df w Hclean)
    as (results & errors & w' & outs & Hloop & Houts & Hrows).
  exists results, errors, w', outs.
  split; [exact Hloop|]. split; [exact Houts|]. split.
  - symmetry. exact (Forall2_length _ _ _ Hrows).
  - clear Hloop Houts Hclean.
    induction Hrows as [|r o rows l (res & Hw & ->) _ IH]; [constructor|].
    constructor; [|exact IH].
    exists res. split; [exact Hw|]. cbn. split.
    + now intros ->.
    + now intros msg ->.
Qed.

Lemma repos_column_is_count_or_message_witness :
  exists results errors w' outs,
    process_rows (net_page 200 (py "OK") (page_of [entry_hello; entry_bare]))
      0 frame_two_rows ([], []) world0 = (Ret (results, errors), w')
    /\ results_df results frame_two_rows = Ret outs
    /\ length outs = length frame_two_rows
    /\ Forall2
         (fun r o =>
            exists res,
              (exists w_i,
                 fst (scrape_github
                        (net_page 200 (py "OK") (page_of [entry_hello; entry_bare]))
                        (github_id_cell r) w_i) = Ret res)
              /\ (error res = None -> out_github_repos o = VInt (count res))
              /\ (forall msg, error res = Some msg ->
                              out_github_repos o = VStr msg))
         frame_two_rows outs.
Proof.
  apply (repos_column_is_count_or_message
           (net_page 200 (py "OK") (page_of [entry_hello; entry_bare]))
           frame_two_rows world0).
  repeat constructor.
Defined.

(** Two rows, one fetched and one without identifier. *)
Example export_two_rows :
  exists results errors w',
    process_rows (net_page 200 (py "OK") (page_of [entry_hello; entry_bare]))
      0 frame_two_rows ([], []) world0 = (Ret (results, errors), w')
    /\ results_df results frame_two_rows =
       Ret [ {| out_first_name := VStr (py "Ada");
                out_last_name := VStr (py "Lovelace");
                out_github_id := VStr (py "octocat");
                out_github_repos := VInt 2 |};
             {| out_first_name := VStr (py "Alan");
                out_last_name := VStr (py "Turing");
                out_github_id := VStr (py "None");
                out_github_repos := VStr (py "No GitHub ID provided") |} ].
Proof. do 3 eexists. split; vm_compute; reflexivity. Qed.

(** * Further properties of the script *)

(** ** Trimming *)

Lemma lstrip_fixed s :
  match s with c :: _ => isspace c = false | [] => True end -> lstrip s = s.
Proof. destruct s as [|c r]; simpl; [reflexivity|]. now intros ->. Qed.

Lemma lstrip_lstrip s : lstrip (lstrip s) = lstrip s.
Proof.
  apply lstrip_fixed. destruct (lstrip s) as [|c r] eqn:E; [exact I|].
  exact (lstrip_head _ _ _ E).
Qed.

Lemma lstrip_split s : exists ws, s = ws ++ lstrip s.
Proof.
  induction s as [|c s [ws IH]]; simpl; [now exists []|].
  destruct (isspace c); [|now exists []].
  exists (c :: ws). simpl. now rewrite <- IH.
Qed.

(** What [strip] returns does not start with a blank either. *)
Lemma strip_head s c r : strip s = c :: r -> isspace c = false.
Proof.
  unfold strip, rstrip. intros H.
  destruct (lstrip_split (rev (lstrip s))) as [ws Hws].
  apply (f_equal (@rev N)) in Hws.
  rewrite rev_involutive, rev_app_distr, H in Hws. simpl in Hws.
  exact (lstrip_head _ _ _ Hws).
Qed.

Lemma strip_strip s : strip (strip s) = strip s.
Proof.
  assert (lstrip (strip s) = strip s) as H1.
  { apply lstrip_fixed. destruct (strip s) as [|c r] eqn:E; [exact I|].
    exact (strip_head _ _ _ E). }
  unfold strip at 1. rewrite H1. unfold rstrip, strip, rstrip.
  now rewrite rev_involutive, lstrip_lstrip.
Qed.

(** ** One call of the scraper *)

Lemma scrape_github_na net w :
  scrape_github net VNA w =
  (Raise {| exn_class := TypeError;
            exn_msg := py "boolean value of NA is ambiguous" |}, w).
Proof. reflexivity. Qed.

Lemma world_eta w : {| sent := sent w; cache := cache w |} = w.
Proof. now destruct w. Qed.

(** The session after a call: the requests of the cell appended, the
    cache as it was. *)
Lemma scrape_github_sent net v w :
  snd (scrape_github net v w) =
  {| sent := sent w ++ requests_for v; cache := cache w |}.
Proof.
  assert (forall l, l = [] ->
            w = {| sent := sent w ++ l; cache := cache w |}) as Hsame.
  { intros l ->. now rewrite app_nil_r, world_eta. }
  assert (v = VNA \/ v <> VNA) as [->|Hv]
    by (destruct v; (now left) || (right; discriminate)).
  { rewrite scrape_github_na. now apply Hsame. }
  destruct (no_id_provided_total v Hv) as [[|] Hb].
  - rewrite (scrape_github_missing net v w Hb). cbn. apply Hsame.
    unfold requests_for. destruct v; try reflexivity. now rewrite Hb.
  - destruct v as [|s| | | |].
    2: { unfold requests_for. rewrite Hb.
         destruct (re_match_id (strip s)) eqn:Hre.
         - now rewrite (scrape_github_fetch net s w Hb Hre).
         - rewrite (scrape_github_bad_format net s w Hb Hre). cbn.
           now apply Hsame. }
    all: rewrite (scrape_github_not_str net _ w Hb) by (intros ?; discriminate);
      cbn; now apply Hsame.
Qed.

(** X1: one call of [scrape_github] never empties or fills the cache and
    sends at most one request; when it sends one, the identifier was a
    string, and the URL is https://github.com/, the trimmed string and
    ?tab=repositories, the trimmed string being non-empty and made of
    [A-Za-z0-9-] only, with the browser user agent and a timeout of
    10. *)
Theorem at_most_one_request
    (net : nat -> request -> outcome response) (v : pyval) (w : world) :
  cache (snd (scrape_github net v w)) = cache w /\
  (sent (snd (scrape_github net v w)) = sent w \/
   exists s,
     v = VStr s /\ strip s <> [] /\ forallb id_char (strip s) = true /\
     sent (snd (scrape_github net v w)) =
     sent w ++
       [{| req_url := py "https://github.com/" ++ strip s ++ py "?tab=repositories";
           req_user_agent := user_agent; req_timeout := 10 |}]).
Proof.
  rewrite scrape_github_sent. cbn. split; [reflexivity|].
  unfold requests_for. destruct v as [|s| | | |];
    try (left; apply app_nil_r).
  destruct (no_id_provided (VStr s)) as [[|]|e];
    try (left; apply app_nil_r).
  destruct (re_match_id (strip s)) eqn:Hre; [|left; apply app_nil_r].
  right. exists s. apply re_match_id_strip in Hre as [Hne Hall].
  repeat split; assumption.
Qed.

(** X3: the result of a call depends on the session only through the
    number of requests already sent, which selects the answer of the
    network; the content of the cache and the requests themselves play
    no part. *)
Theorem result_ignores_cache
    (net : nat -> request -> outcome response) (v : pyval) (w1 w2 : world) :
  length (sent w1) = length (sent w2) ->
  fst (scrape_github net v w1) = fst (scrape_github net v w2).
Proof.
  intros Hlen.
  assert (v = VNA \/ v <> VNA) as [->|Hv]
    by (destruct v; (now left) || (right; discriminate)).
  { reflexivity. }
  destruct (no_id_provided_total v Hv) as [[|] Hb].
  - now rewrite !(scrape_github_missing net v _ Hb).
  - destruct v as [|s| | | |].
    2: { destruct (re_match_id (strip s)) eqn:Hre.
         - rewrite !(scrape_github_fetch net s _ Hb Hre). cbn.
           now rewrite Hlen.
         - now rewrite !(scrape_github_bad_format net s _ Hb Hre). }
    all: now rewrite !(scrape_github_not_str net _ _ Hb)
           by (intros ?; discriminate).
Qed.

Lemma result_ignores_cache_witness :
  fst (scrape_github (net_page 200 (py "OK") (page_of [entry_hello]))
         (VStr (py "octocat")) world0) =
  fst (scrape_github (net_page 200 (py "OK") (page_of [entry_hello]))
         (VStr (py "octocat")) world_cached).
Proof.
  apply (result_ignores_cache
           (net_page 200 (py "OK") (page_of [entry_hello]))
           (VStr (py "octocat")) world0 world_cached).
  reflexivity.
Defined.

Lemma no_id_provided_strip s :
  no_id_provided (VStr (strip s)) = no_id_provided (VStr s).
Proof.
  rewrite !no_id_provided_str, strip_strip. f_equal.
  destruct (bool_decide (s = [])) eqn:E.
  - apply bool_decide_eq_true in E. subst s. reflexivity.
  - cbn. destruct (bool_decide (strip s = [])); cbn.
    + now rewrite orb_true_r.
    + reflexivity.
Qed.

(** X6: blanks around an identifier never matter: a string and its
    trimmed form give the same result and leave the same session. *)
Theorem surrounding_blanks_ignored
    (net : nat -> request -> outcome response) (s : pystr) (w : world) :
  scrape_github net (VStr s) w = scrape_github net (VStr (strip s)) w.
Proof.
  pose proof (no_id_provided_strip s) as Hs.
  destruct (no_id_provided_total (VStr s)) as [[|] Hm]; [discriminate| |];
    rewrite Hm in Hs.
  - rewrite (scrape_github_missing net (VStr (strip s)) w Hs).
    now apply scrape_github_missing.
  - destruct (re_match_id (strip s)) eqn:Hre.
    + rewrite (scrape_github_fetch net s w Hm Hre).
      rewrite (scrape_github_fetch net (strip s) w Hs);
        rewrite strip_strip; [reflexivity|exact Hre].
    + rewrite (scrape_github_bad_format net s w Hm Hre).
      rewrite (scrape_github_bad_format net (strip s) w Hs);
        [reflexivity|now rewrite strip_strip].
Qed.


(** X5: an exception of [requests.get] outside the [RequestException]
    family falls to the generic handler: the result is a Scraping
    error carrying its text, with count 0, after the one request. *)
Theorem foreign_exception_is_scraping_error
    (net : nat -> request -> outcome response) (s : pystr) (w : world)
    (e : exn) :
  no_id_provided (VStr s) = Ret false ->
  re_match_id (strip s) = true ->
  net (length (sent w)) (profile_request (strip s)) = Raise e ->
  is_request_exception (exn_class e) = false ->
  scrape_github net (VStr s) w =
  (Ret {| error := Some (py "Scraping error: " ++ exn_msg e); count := 0;
          repos := [] |},
   {| sent := sent w ++ [profile_request (strip s)]; cache := cache w |}).
Proof.
  intros Hm Hre Hnet He. rewrite (scrape_github_fetch net s w Hm Hre), Hnet.
  cbn. unfold handled. now rewrite He.
Qed.

Lemma foreign_exception_is_scraping_error_witness :
  scrape_github
    (fun _ _ => Raise {| exn_class := OtherException; exn_msg := py "boom" |})
    (VStr (py "octocat")) world0 =
  (Ret {| error := Some (py "Scraping error: boom"); count := 0; repos := [] |},
   {| sent := [octocat_request]; cache := ∅ |}).
Proof.
  apply (foreign_exception_is_scraping_error
           (fun _ _ => Raise {| exn_class := OtherException; exn_msg := py "boom" |})
           (py "octocat") world0
           {| exn_class := OtherException; exn_msg := py "boom" |});
    reflexivity.
Defined.

(** ** The records of a result *)

Lemma fetched_repos id answer :
  exists entries, repos (fetched id answer) = map (extract_repo id) entries.
Proof.
  assert (forall e, repos (handled e) = map (extract_repo id) []) as Hh.
  { intros e. unfold handled. now destruct (is_request_exception _). }
  unfold fetched. destruct answer as [r|e]; [|exists []; apply Hh].
  destruct (raise_for_status r); [|exists []; apply Hh].
  unfold page_result. destruct (find _ _ _ _) as [c|]; [|now exists []].
  now eexists.
Qed.

Lemma scrape_github_repos net v w r :
  fst (scrape_github net v w) = Ret r ->
  exists id entries, repos r = map (extract_repo id) entries.
Proof.
  assert (v = VNA \/ v <> VNA) as [->|Hv]
    by (destruct v; (now left) || (right; discriminate)).
  { discriminate. }
  destruct (no_id_provided_total v Hv) as [[|] Hb].
  - rewrite (scrape_github_missing net v w Hb). intros [= <-]. now exists [], [].
  - destruct v as [|s| | | |].
    2: { destruct (re_match_id (strip s)) eqn:Hre.
         - rewrite (scrape_github_fetch net s w Hb Hre). intros [= <-].
           exists (strip s). apply fetched_repos.
         - rewrite (scrape_github_bad_format net s w Hb Hre). intros [= <-].
           now exists [], []. }
    all: rewrite (scrape_github_not_str net _ w Hb) by (intros ?; discriminate);
      intros [= <-]; now exists [], [].
Qed.

Lemma extract_repo_trimmed id entry :
  strip (name (extract_repo id entry)) = name (extract_repo id entry) /\
  strip (language (extract_repo id entry)) = language (extract_repo id entry) /\
  strip (description (extract_repo id entry)) = description (extract_repo id entry).
Proof.
  unfold extract_repo. cbn. repeat split.
  - destruct (find entry (py "a") _ _); [apply strip_strip|reflexivity].
  - destruct (find entry (py "span") _ _); [apply strip_strip|reflexivity].
  - destruct (find entry (py "p") _ _); [apply strip_strip|reflexivity].
Qed.

(** X7: whatever the page, the name, the language and the description
    of every record [scrape_github] returns are free of surrounding
    blanks: trimming them again changes nothing. *)
Theorem fields_are_trimmed
    (net : nat -> request -> outcome response) (v : pyval) (w : world)
    (r : result) (rec : repo_record) :
  fst (scrape_github net v w) = Ret r ->
  In rec (repos r) ->
  strip (name rec) = name rec /\
  strip (language rec) = language rec /\
  strip (description rec) = description rec.
Proof.
  intros Hr Hin. destruct (scrape_github_repos net v w r Hr) as (id & entries & He).
  rewrite He in Hin. apply in_map_iff in Hin as (entry & <- & _).
  apply extract_repo_trimmed.
Qed.

Lemma fields_are_trimmed_witness :
  strip (py "hello-world") = py "hello-world" /\
  strip (py "Python") = py "Python" /\
  strip (py "My first repo") = py "My first repo".
Proof.
  apply (fields_are_trimmed
           (net_page 200 (py "OK") (page_of [entry_hello]))
           (VStr (py "octocat")) world0
           {| error := None; count := 1;
              repos := [ {| name := py "hello-world";
                            link := py "https://github.com/octocat/hello-world";
                            language := py "Python";
                            description := py "My first repo" |} ] |}
           {| name := py "hello-world";
              link := py "https://github.com/octocat/hello-world";
              language := py "Python";
              description := py "My first repo" |}).
  - vm_compute. reflexivity.
  - left. reflexivity.
Defined.

(** ** The requests of a batch *)

Lemma requests_for_length v : (length (requests_for v) <= 1)%nat.
Proof.
  unfold requests_for. destruct v as [|s| | | |]; try (cbn; lia).
  destruct (no_id_provided (VStr s)) as [[|]|]; try (cbn; lia).
  destruct (re_match_id (strip s)); cbn; lia.
Qed.

Lemma one_fetch_per_row_sent net rows : forall w,
  sent (snd (one_fetch_per_row net rows w)) =
  sent w ++ flat_map (fun r => requests_for (github_id_cell r)) rows.
Proof.
  induction rows as [|r rows IH]; intros w; cbn [one_fetch_per_row snd flat_map].
  - now rewrite app_nil_r.
  - rewrite IH, scrape_github_sent. cbn. now rewrite <- app_assoc.
Qed.

Lemma flat_map_short {A B} (f : A -> list B) (l : list A) :
  (forall x, (length (f x) <= 1)%nat) ->
  (length (flat_map f l) <= length l)%nat.
Proof.
  intros Hf. induction l as [|x l IH]; cbn; [lia|].
  rewrite length_app. specialize (Hf x). lia.
Qed.

(** X2: over a whole batch the loop sends, in row order, exactly one
    request for each row whose identifier is a string that passes both
    tests, and none for the other rows; so it never sends more requests
    than there are rows. *)
Theorem requests_of_a_batch
    (net : nat -> request -> outcome response) (rows : list row) (w : world) :
  exists results errors w',
    process_rows net 0 rows ([], []) w = (Ret (results, errors), w')
    /\ sent w' =
       sent w ++ flat_map (fun r => requests_for (github_id_cell r)) rows
    /\ (length (sent w') <= length (sent w) + length rows)%nat.
Proof.
  destruct (process_rows_spec net rows 0 [] [] w) as [errors H].
  do 3 eexists. split; [exact H|].
  rewrite one_fetch_per_row_sent. split; [reflexivity|].
  rewrite length_app.
  pose proof (flat_map_short (fun r => requests_for (github_id_cell r)) rows
                (fun r => requests_for_length (github_id_cell r))).
  lia.
Qed.

(** ** The error log of the loop *)

Lemma row_step_missing net i r results errors w :
  no_id_provided (github_id_cell r) = Ret true ->
  row_step net i r (results, errors) w =
  (Ret (results ++ [{| github := error_result (py "No GitHub ID provided") |}],
        errors ++
          [row_label i (py_str (first_name r) ++ py "_" ++ py_str (last_name r))
           ++ py "No GitHub ID provided"]),
   {| sent := sent w; cache := ∅ |}).
Proof.
  intros Hm. unfold row_step, process_row, cache_clear. run_monad.
  now rewrite (scrape_github_missing net _ _ Hm).
Qed.

Lemma row_step_bad_format net i r s results errors w :
  github_id_cell r = VStr s ->
  no_id_provided (VStr s) = Ret false ->
  re_match_id (strip s) = false ->
  row_step net i r (results, errors) w =
  (Ret (results ++ [{| github := error_result (py "Invalid GitHub ID format") |}],
        errors ++
          [row_label i (py_str (first_name r) ++ py "_" ++ py_str (last_name r))
           ++ py "Invalid GitHub ID format - " ++ s]),
   {| sent := sent w; cache := ∅ |}).
Proof.
  intros Hs Hm Hre. unfold row_step, process_row, cache_clear. run_monad.
  rewrite Hs. now rewrite (scrape_github_bad_format net _ _ Hm Hre).
Qed.

Lemma row_step_na net i r results errors w :
  github_id_cell r = VNA ->
  row_step net i r (results, errors) w =
  (Ret (results ++ [{| github := error_result (py "Processing error") |}],
        errors ++
          [row_label i (py_str (first_name r) ++ py "_" ++ py_str (last_name r))
           ++ py "Processing error - boolean value of NA is ambiguous"]),
   {| sent := sent w; cache := ∅ |}).
Proof.
  intros Hs. unfold row_step, process_row, cache_clear. run_monad.
  now rewrite Hs.
Qed.

(** X9: the three failures the loop writes to its error list, each as
    one line starting with Row, the 1-based row number and the two
    names joined by an underscore: a missing identifier; a string that
    fails the pattern, shown as it was typed (not trimmed); and pandas'
    NA, whose exception text follows Processing error. *)
Theorem validation_failures_are_logged
    (net : nat -> request -> outcome response) (i : nat) (r : row)
    (results : list row_result) (errors : list pystr) (w : world) :
  let line :=
    py "Row " ++ str_of_int (Z.of_nat i + 1) ++ py " ("
    ++ (py_str (first_name r) ++ py "_" ++ py_str (last_name r)) ++ py "): " in
  (no_id_provided (github_id_cell r) = Ret true ->
   fst (row_step net i r (results, errors) w) =
   Ret (results ++ [{| github := error_result (py "No GitHub ID provided") |}],
        errors ++ [line ++ py "No GitHub ID provided"]))
  /\
  (forall s,
     github_id_cell r = VStr s ->
     no_id_provided (VStr s) = Ret false ->
     re_match_id (strip s) = false ->
     fst (row_step net i r (results, errors) w) =
     Ret (results ++ [{| github := error_result (py "Invalid GitHub ID format") |}],
          errors ++ [line ++ py "Invalid GitHub ID format - " ++ s]))
  /\
  (github_id_cell r = VNA ->
   fst (row_step net i r (results, errors) w) =
   Ret (results ++ [{| github := error_result (py "Processing error") |}],
        errors ++
          [line ++ py "Processing error - boolean value of NA is ambiguous"])).
Proof.
  intros line. split; [|split].
  - intros Hm. now rewrite (row_step_missing net i r results errors w Hm).
  - intros s Hs Hm Hre.
    now rewrite (row_step_bad_format net i r s results errors w Hs Hm Hre).
  - intros Hs. now rewrite (row_step_na net i r results errors w Hs).
Qed.

Lemma validation_failures_are_logged_witness :
  fst (row_step net_down 4
         {| first_name := VStr (py "Ada"); last_name := VStr (py "Lovelace");
            github_id_cell := VStr (py " octo cat") |}
         ([], []) world0) =
  Ret ([{| github := error_result (py "Invalid GitHub ID format") |}],
       [py "Row 5 (Ada_Lovelace): Invalid GitHub ID format -  octo cat"]).
Proof.
  destruct (validation_failures_are_logged net_down 4
              {| first_name := VStr (py "Ada"); last_name := VStr (py "Lovelace");
                 github_id_cell := VStr (py " octo cat") |}
              [] [] world0) as (_ & H & _).
  exact (H (py " octo cat") eq_refl eq_refl eq_refl).
Defined.

(** X10: a row whose page was fetched and passed the status check adds
    nothing to the error list, whether the page gave repositories or
    lacked the repository list: No repositories found shows in the
    row's result only. *)
Theorem fetched_pages_are_not_logged
    (net : nat -> request -> outcome response) (i : nat) (r : row) (s : pystr)
    (results : list row_result) (errors : list pystr) (w : world)
    (resp : response) :
  github_id_cell r = VStr s ->
  no_id_provided (VStr s) = Ret false ->
  re_match_id (strip s) = true ->
  net (length (sent w)) (profile_request (strip s)) = Ret resp ->
  raise_for_status resp = Ret tt ->
  fst (row_step net i r (results, errors) w) =
  Ret (results ++ [{| github := page_result (strip s) (content resp) |}],
       errors).
Proof.
  intros Hs Hm Hre Hnet Hst.
  unfold row_step, process_row, cache_clear. run_monad. rewrite Hs.
  rewrite (scrape_github_fetch net s _ Hm Hre). cbn [sent].
  rewrite Hnet. cbn. rewrite Hst. cbn.
  unfold page_result. now destruct (find (content resp) _ _ _).
Qed.

Lemma fetched_pages_are_not_logged_witness :
  fst (row_step (net_page 200 (py "OK") page_empty) 0
         {| first_name := VStr (py "Ada"); last_name := VStr (py "Lovelace");
            github_id_cell := VStr (py "octocat") |}
         ([], []) world0) =
  Ret ([{| github := error_result (py "No repositories found") |}], []).
Proof.
  apply (fetched_pages_are_not_logged (net_page 200 (py "OK") page_empty) 0
           {| first_name := VStr (py "Ada"); last_name := VStr (py "Lovelace");
              github_id_cell := VStr (py "octocat") |}
           (py "octocat") [] [] world0 (respond 200 (py "OK") page_empty));
    reflexivity.
Defined.

Lemma row_step_log net i r results errors w :
  let step := scrape_github net (github_id_cell r)
                {| sent := sent w; cache := ∅ |} in
  exists lines,
    (length lines <= 1)%nat /\
    row_step net i r (results, errors) w =
    (Ret (results ++ [{| github := at_row_boundary (fst step) |}],
          errors ++ lines),
     snd step).
Proof.
  unfold row_step, process_row, cache_clear. run_monad.
  destruct (scrape_github _ _ _) as [[res|e] w1]; cbn.
  - destruct (get_error res && contains (error_text res) _).
    + eexists [_]. split; [cbn; lia|reflexivity].
    + destruct (get_error res && contains (error_text res) _).
      * eexists [_]. split; [cbn; lia|reflexivity].
      * exists []. split; [cbn; lia|]. now rewrite app_nil_r.
  - eexists [_]. split; [cbn; lia|reflexivity].
Qed.

Lemma process_rows_log net rows : forall i results errors w,
  exists lines,
    (length lines <= length rows)%nat /\
    process_rows net i rows (results, errors) w =
    (Ret (results ++ map (fun res => {| github := res |})
                         (fst (one_fetch_per_row net rows w)),
          errors ++ lines),
     snd (one_fetch_per_row net rows w)).
Proof.
  induction rows as [|r rows IH]; intros i results errors w.
  - exists []. split; [cbn; lia|]. cbn. now rewrite !app_nil_r.
  - destruct (row_step_log net i r results errors w) as (l1 & Hl1 & Hstep).
    cbn [process_rows one_fetch_per_row fst snd].
    unfold mbind, M_bind at 1. rewrite Hstep.
    destruct (IH (S i) (results ++ [{| github := at_row_boundary
         (fst (scrape_github net (github_id_cell r)
                 {| sent := sent w; cache := ∅ |})) |}]) (errors ++ l1)
         (snd (scrape_github net (github_id_cell r)
                 {| sent := sent w; cache := ∅ |}))) as (l2 & Hl2 & Hrest).
    exists (l1 ++ l2). split; [rewrite length_app; cbn; lia|].
    rewrite Hrest. cbn [map]. now rewrite <- !app_assoc.
Qed.

(** X11: the error list grows by at most one line per row, so after a
    batch it has no more lines than the batch has rows; the result list
    has exactly one entry per row. *)
Theorem error_log_bounded
    (net : nat -> request -> outcome response) (rows : list row) (w : world) :
  exists results errors w',
    process_rows net 0 rows ([], []) w = (Ret (results, errors), w')
    /\ (length errors <= length rows)%nat
    /\ length results = length rows.
Proof.
  destruct (process_rows_log net rows 0 [] [] w) as (lines & Hlen & H).
  do 3 eexists. split; [exact H|]. split; [exact Hlen|].
  cbn. now rewrite length_map, one_fetch_per_row_length.
Qed.

(** ** The frame after [fillna] *)

Lemma error_kind_not_processing msg :
  error_kind msg -> msg <> py "Processing error".
Proof. intros [] H; vm_compute in H; discriminate H. Qed.

Lemma Forall2_map_left {A B C} (P : B -> C -> Prop) (f : A -> B)
    (l : list A) (l' : list C) :
  Forall2 P (map f l) l' -> Forall2 (fun x y => P (f x) y) l l'.
Proof.
  revert l'. induction l as [|x l IH]; intros l' H; inversion H; subst;
    constructor; auto.
Qed.

Lemma fillna_rows_clean (uploaded : list row) :
  Forall (fun r => isna (github_id_cell r) = false) (map fillna_row uploaded).
Proof.
  induction uploaded as [|r0 rest IH]; cbn; constructor;
    [apply fillna_not_na|exact IH].
Qed.

(** X8: on the frame the script really loops over (after
    [fillna("")]), no call of [scrape_github] raises: every row's result
    is the dict of its own call, a success or one of the five error
    kinds, and never the Processing error dict of the [except]
    branch. *)
Theorem cleaned_rows_never_raise
    (net : nat -> request -> outcome response) (uploaded : list row) :
  exists results errors w',
    process_rows net 0 (map fillna_row uploaded) ([], []) world0 =
      (Ret (results, errors), w')
    /\ Forall2
         (fun r rr =>
            (exists w_i,
               fst (scrape_github net (fillna (github_id_cell r)) w_i) =
               Ret (github rr))
            /\ error (github rr) <> Some (py "Processing error"))
         uploaded results.
Proof.
  destruct (process_rows_spec net (map fillna_row uploaded) 0 [] [] world0)
    as [errors H].
  do 3 eexists. split; [exact H|]. cbn [app].
  pose proof (one_fetch_per_row_clean net _ world0 (fillna_rows_clean uploaded))
    as Hfetch.
  apply Forall2_map_left in Hfetch. clear H.
  induction Hfetch as [|r res rows l [Ht [w_i Hw]] _ IH]; cbn; constructor;
    [|exact IH].
  cbn. split; [now exists w_i|].
  destruct Ht as [(He & _)|(msg & He & _ & Hk & _)]; rewrite He.
  - discriminate.
  - intros [= ->]. now apply (error_kind_not_processing _ Hk).
Qed.

(** ** The summary *)

Lemma valid_github_count results :
  valid_github results =
  Z.of_nat (length (List.filter (fun r => negb (get_error (github r))) results)).
Proof.
  unfold valid_github.
  assert (forall acc,
            fold_left
              (fun acc r => if negb (get_error (github r)) then (acc + 1)%Z else acc)
              results acc =
            (acc + Z.of_nat (length (List.filter
                                       (fun r => negb (get_error (github r)))
                                       results)))%Z) as H.
  { induction results as [|r results IH]; intros acc; cbn; [lia|].
    rewrite IH. destruct (negb (get_error (github r))); cbn; lia. }
  rewrite H. lia.
Qed.

Lemma filter_split_length {A} (p : A -> bool) (l : list A) :
  (length (List.filter p l) + length (List.filter (fun x => negb (p x)) l)
   = length l)%nat.
Proof.
  induction l as [|x l IH]; cbn; [reflexivity|].
  destruct (p x); cbn; lia.
Qed.

Lemma at_row_boundary_count net v w :
  let res := at_row_boundary (fst (scrape_github net v w)) in
  get_error res = false -> (0 <= count res)%Z.
Proof.
  pose proof (scrape_github_tagged net v w) as Ht.
  destruct (fst (scrape_github net v w)) as [r|e]; cbn.
  - destruct Ht as [(_ & _ & Hc)|(msg & _ & Hg & _)].
    + intros _. rewrite Hc. lia.
    + congruence.
  - discriminate.
Qed.

Lemma one_fetch_per_row_counts net rows : forall w,
  Forall (fun res => get_error res = false -> (0 <= count res)%Z)
         (fst (one_fetch_per_row net rows w)).
Proof.
  induction rows as [|r rows IH]; intros w; cbn; constructor.
  - apply at_row_boundary_count.
  - apply IH.
Qed.

(** X12: in the summary of any batch, the rows counted as valid and the
    rows with an error add up to the number of rows; the list handed to
    [np.mean] is never empty, holds only non-negative counts, has one
    entry per valid row, and is [[0]] when no row is valid. *)
Theorem summary_counts
    (net : nat -> request -> outcome response) (rows : list row) (w : world) :
  exists results errors w',
    process_rows net 0 rows ([], []) w = (Ret (results, errors), w')
    /\ (valid_github results
        + Z.of_nat (length (List.filter (fun rr => get_error (github rr)) results))
        = Z.of_nat (length rows))%Z
    /\ mean_input results <> []
    /\ Forall (fun c => (0 <= c)%Z) (mean_input results)
    /\ (valid_github results = 0%Z -> mean_input results = [0%Z])
    /\ (valid_github results <> 0%Z ->
        Z.of_nat (length (mean_input results)) = valid_github results).
Proof.
  destruct (process_rows_spec net rows 0 [] [] w) as [errors H].
  do 3 eexists. split; [exact H|]. clear H. cbn [app].
  set (results := map (fun res => {| github := res |})
                      (fst (one_fetch_per_row net rows w))).
  assert (length results = length rows) as Hlen
    by (subst results; now rewrite length_map, one_fetch_per_row_length).
  assert (Forall (fun rr => get_error (github rr) = false ->
                            (0 <= count (github rr))%Z) results) as Hcounts.
  { subst results. pose proof (one_fetch_per_row_counts net rows w) as Hc.
    clear Hlen. induction Hc as [|res l Hres _ IH]; cbn; [constructor|].
    constructor; [exact Hres|exact IH]. }
  clearbody results.
  rewrite valid_github_count.
  pose proof (filter_split_length (fun r => negb (get_error (github r))) results)
    as Hsplit.
  assert (List.filter (fun x => negb (negb (get_error (github x)))) results =
          List.filter (fun rr => get_error (github rr)) results) as Hneg.
  { apply filter_ext. intros a. apply negb_involutive. }
  cbv beta in Hsplit. rewrite Hneg in Hsplit.
  split; [lia|].
  unfold mean_input.
  set (ok := List.filter (fun r => negb (get_error (github r))) results) in *.
  assert (Forall (fun c => (0 <= c)%Z) (map (fun r => count (github r)) ok))
    as Hnonneg.
  { subst ok. clear -Hcounts. induction Hcounts as [|rr l Hrr _ IH]; cbn;
      [constructor|].
    destruct (get_error (github rr)) eqn:E; cbn; [exact IH|].
    constructor; [now apply Hrr|exact IH]. }
  destruct ok as [|o ok'] eqn:Eok; cbn.
  - repeat split; try discriminate; try reflexivity.
    + repeat constructor. lia.
    + intros Hne. now destruct Hne.
  - repeat split; try discriminate.
    + exact Hnonneg.
    + intros _. now rewrite length_map.
Qed.

(** ** The exported frame, row by row *)

(** X13: on a frame without missing identifier cells, the row loop and
    the [results_df] comprehension both return, and [results_df] keeps
    the rows in order: each exported row carries the two names of its
    frame row, the identifier cell itself or the word None when that
    cell is falsy (empty string, 0, False), and in the last column what
    the row's own call of [scrape_github] returned: the error text if
    there is one, the count otherwise. *)
Theorem exported_rows
    (net : nat -> request -> outcome response) (df : list row) (w : world) :
  Forall (fun r => isna (github_id_cell r) = false) df ->
  exists results errors w' outs,
    process_rows net 0 df ([], []) w = (Ret (results, errors), w')
    /\ results_df results df = Ret outs
    /\ Forall2
         (fun r o =>
            exists res,
              (exists w_i,
                 fst (scrape_github net (github_id_cell r) w_i) = Ret res)
              /\ o = {| out_first_name := first_name r;
                        out_last_name := last_name r;
                        out_github_id :=
                          match truth (github_id_cell r) with
                          | Ret false => VStr (py "None")
                          | _ => github_id_cell r
                          end;
                        out_github_repos :=
                          match error res with
                          | Some msg => VStr msg
                          | None => VInt (count res)
                          end |})
         df outs.
Proof. exact (export_of_clean_frame net df w). Qed.

Lemma exported_rows_witness :
  exists results errors w' outs,
    process_rows net_down 0 frame_two_rows ([], []) world0 =
      (Ret (results, errors), w')
    /\ results_df results frame_two_rows = Ret outs
    /\ Forall2
         (fun r o =>
            exists res,
              (exists w_i,
                 fst (scrape_github net_down (github_id_cell r) w_i) = Ret res)
              /\ o = {| out_first_name := first_name r;
                        out_last_name := last_name r;
                        out_github_id :=
                          match truth (github_id_cell r) with
                          | Ret false => VStr (py "None")
                          | _ => github_id_cell r
                          end;
                        out_github_repos :=
                          match error res with
                          | Some msg => VStr msg
                          | None => VInt (count res)
                          end |})
         frame_two_rows outs.
Proof.
  apply (exported_rows net_down frame_two_rows world0). repeat constructor.
Defined.

(** X14: on a frame without missing identifier cells, a row whose
    identifier is the empty string (what [fillna] leaves of an empty
    cell) is exported with None as identifier and No GitHub ID provided
    as repositories. *)
Theorem empty_cells_in_export
    (net : nat -> request -> outcome response) (df : list row) (w : world) :
  Forall (fun r => isna (github_id_cell r) = false) df ->
  exists results errors w' outs,
    process_rows net 0 df ([], []) w = (Ret (results, errors), w')
    /\ results_df results df = Ret outs
    /\ Forall2
         (fun r o =>
            github_id_cell r = VStr [] ->
            out_github_id o = VStr (py "None") /\
            out_github_repos o = VStr (py "No GitHub ID provided"))
         df outs.
Proof.
  intros Hclean.
  destruct (export_of_clean_frame net df w Hclean)
    as (results & errors & w' & outs & Hloop & Houts & Hrows).
  exists results, errors, w', outs.
  split; [exact Hloop|]. split; [exact Houts|].
  clear Hloop Houts Hclean.
  induction Hrows as [|r o rows l (res & [w_i Hres] & ->) _ IH];
    [constructor|].
  constructor; [|exact IH].
  intros Hempty. rewrite Hempty in *. cbn in Hres. injection Hres as <-.
  now split.
Qed.

Lemma empty_cells_in_export_witness :
  exists results errors w' outs,
    process_rows net_down 0 frame_two_rows ([], []) world0 =
      (Ret (results, errors), w')
    /\ results_df results frame_two_rows = Ret outs
    /\ Forall2
         (fun r o =>
            github_id_cell r = VStr [] ->
            out_github_id o = VStr (py "None") /\
            out_github_repos o = VStr (py "No GitHub ID provided"))
         frame_two_rows outs.
Proof.
  apply (empty_cells_in_export net_down frame_two_rows world0).
  repeat constructor.
Defined.

(** ** The column check *)

Lemma existsb_In (col : pystr) (columns : list pystr) :
  existsb (fun c => bool_decide (c = col)) columns = true <-> In col columns.
Proof.
  rewrite existsb_exists. split.
  - intros (c & Hin & Hc). apply bool_decide_eq_true in Hc. now subst.
  - intros Hin. exists col. split; [exact Hin|]. now apply bool_decide_eq_true.
Qed.

(** X15: the upload passes the column check exactly when its header
    has the three labels First Name, Last Name and This is my GitHub
    ID, whatever their order and whatever other columns there are; a
    column already called GitHub ID does not stand in for the third. *)
Theorem columns_accepted (columns : list pystr) :
  check_columns columns = None <->
  In (py "First Name") columns /\ In (py "Last Name") columns /\
  In (py "This is my GitHub ID") columns.
Proof.
  unfold check_columns, missing_cols, required_cols. cbn [List.filter].
  rewrite <- !existsb_In.
  destruct (existsb _ columns); destruct (existsb _ columns);
    destruct (existsb _ columns); cbn; split;
    try (intros H; vm_compute in H; discriminate H);
    try (intros (? & ? & ?); discriminate);
    try tauto.
  all: intros _; reflexivity.
Qed.

(** ** The cache *)

Lemma one_fetch_per_row_cache net rows : forall w,
  cache (snd (one_fetch_per_row net rows w)) =
  match rows with
  | [] => cache w
  | _ :: _ => ∅
  end.
Proof.
  induction rows as [|r rows IH]; intros w; [reflexivity|].
  cbn [one_fetch_per_row snd]. rewrite IH, scrape_github_sent.
  now destruct rows.
Qed.

(** X16: nothing is ever stored in the module-level cache: whatever it
    held before, it is empty after any batch with at least one row, and
    untouched by an empty batch; so a repeated identifier is fetched
    again each time. *)
Theorem cache_stays_empty
    (net : nat -> request -> outcome response) (rows : list row) (w : world) :
  exists results errors w',
    process_rows net 0 rows ([], []) w = (Ret (results, errors), w')
    /\ cache w' = match rows with
                  | [] => cache w
                  | _ :: _ => ∅
                  end.
Proof.
  destruct (process_rows_spec net rows 0 [] [] w) as [errors H].
  do 3 eexists. split; [exact H|]. apply one_fetch_per_row_cache.
Qed.

(** The same identifier in two rows costs two requests. *)
Example repeated_identifier_is_refetched :
  sent (snd (process_rows (net_page 200 (py "OK") (page_of [entry_hello])) 0
               [ {| first_name := VStr (py "Ada"); last_name := VStr (py "Lovelace");
                    github_id_cell := VStr (py "octocat") |};
                 {| first_name := VStr (py "Ada"); last_name := VStr (py "Byron");
                    github_id_cell := VStr (py " octocat ") |} ]
               ([], []) world0)) =
  [octocat_request; octocat_request].
Proof. vm_compute. reflexivity. Qed.
